(** * Run-configuration resolution of the Java test runner

  A shallow embedding of [src/testConfigManager.ts] (class
  [TestConfigManager]) and the properties of its three methods
  [loadRunConfig], [selectDeprecatedConfig] and [selectQuickPick].

  The methods are [async], but a single call never forks: every [await]
  is a sequential step.  A call is modelled as a computation over the
  log of user-visible interactions (warning messages and quick-pick
  prompts) that either completes normally or throws. *)

From Stdlib Require Import String Ascii List Arith Bool Lia DecimalString DecimalNat.
Import ListNotations.
Local Open Scope string_scope.
Local Open Scope list_scope.

(** ** JavaScript values used by the module *)

(** What a rejected promise / [throw] carries.  [Error message] is
  [new Error(message)]; [TypeError] is a property read on [undefined] or a
  spread of [undefined]; [RangeError] is a call given more arguments than
  the engine takes; [SyntaxError] is what [JSON.parse] throws;
  [SystemError] is a rejected [fse.readFile]. *)
Inductive JsError : Type :=
| TypeError
| RangeError
| SyntaxError
| SystemError
| Error (message : string).

(** How a call ends: [Normal v] is [return v], [Throw e] is a thrown error. *)
Inductive Completion (A : Type) : Type :=
| Normal (a : A)
| Throw (e : JsError).
Arguments Normal {A} a.
Arguments Throw {A} e.

(** Truthiness of a [string | undefined]: [undefined] and [''] are falsy. *)
Definition truthy (v : option string) : bool :=
match v with
| Some s => negb (s =? "")
| None => false
end.

(** [a === b] on two [string | undefined] values. *)
Definition strict_eq (a b : option string) : bool :=
match a, b with
| Some x, Some y => x =? y
| None, None => true
| _, _ => false
end.

(** A [string | undefined] inside a template literal. *)
Definition interpolate (v : option string) : string :=
match v with
| Some s => s
| None => "undefined"
end.

(** A number inside a template literal.  The numbers rendered here are
  array positions, for which JavaScript prints the plain decimal digits. *)
Definition Number_toString (n : nat) : string :=
NilEmpty.string_of_uint (Nat.to_uint n).

Section Model.

(** The execution parameters of a configuration other than its name
    ([projectName], [args], [vmargs], [env], ...): declared in
    [runConfigs.ts] and never inspected by this module. *)
Variable Payload : Type.

(** [vscode.Uri]. *)
Variable Uri : Type.

(** ** The interfaces of [protocols.ts], [runConfigs.ts] and [vscode] *)

(** [ITestItem]: only [uri] is read. *)
Record ITestItem : Type := {
  ITestItem_uri : string
}.

(** [WorkspaceFolder]: only [uri] is read. *)
Record WorkspaceFolder : Type := {
  WorkspaceFolder_uri : Uri
}.

(** [IExecutionConfig]: [name?: string] and the opaque rest. *)
Record IExecutionConfig : Type := {
  name : option string;
  params : Payload
}.

(** [IExecutionConfigGroup].  The value comes out of [JSON.parse] with a
    type assertion only, so either key can be missing at run time:
    [None] is [undefined].  The elements of [items] are objects, as the
    interface declares them. *)
Record IExecutionConfigGroup : Type := {
  default : option string;
  items : option (list IExecutionConfig)
}.

(** [ITestConfig], the parsed legacy document; a missing key reads as
    [undefined]. *)
Record ITestConfig : Type := {
  run : option IExecutionConfigGroup;
  debug : option IExecutionConfigGroup
}.

(** [IRunConfigQuickPick extends QuickPickItem]. *)
Record IRunConfigQuickPick : Type := {
  label : string;
  detail : string;
  item : IExecutionConfig
}.

(** ** The host: everything the module calls but does not define *)
Record Host : Type := {
  (** [Uri.parse] *)
  Uri_parse : string -> Uri;
  (** [uri.fsPath] *)
  fsPath : Uri -> string;
  (** [workspace.getWorkspaceFolder] *)
  getWorkspaceFolder : Uri -> option WorkspaceFolder;
  (** [workspace.getConfiguration('java.test', uri).get('config')] *)
  getConfiguration : Uri -> option (list IExecutionConfig);
  (** [path.join] *)
  path_join : string -> string -> string;
  (** [fse.pathExists] *)
  pathExists : string -> bool;
  (** [fse.readFile(p, 'utf-8')]; [None] when the read is rejected *)
  readFile : string -> option string;
  (** [JSON.parse] asserted to [ITestConfig]; [None] when it throws *)
  JSON_parse : string -> option ITestConfig;
  (** [JSON.stringify] *)
  JSON_stringify : IExecutionConfig -> string;
  (** the user's answer to [window.showQuickPick(choices, {placeHolder})];
      [None] when the prompt is dismissed *)
  showQuickPick : list IRunConfigQuickPick -> string -> option IRunConfigQuickPick;
  (** the largest number of arguments the engine takes in one call; a
      spread of more elements into a call throws a [RangeError] *)
  argumentLimit : nat
}.

(** ** The interaction log and the effect monad *)

(** The user-visible interactions of a call, oldest first. *)
Inductive Event : Type :=
| WarningMessage (message : string)
| QuickPick (choices : list IRunConfigQuickPick) (placeHolder : string).

Definition Eff (A : Type) : Type := list Event -> Completion A * list Event.

Definition ret {A : Type} (a : A) : Eff A :=
  fun log => (Normal a, log).

Definition throw {A : Type} (e : JsError) : Eff A :=
  fun log => (Throw e, log).

Definition bind {A B : Type} (m : Eff A) (k : A -> Eff B) : Eff B :=
  fun log =>
    match m log with
    | (Normal a, log') => k a log'
    | (Throw e, log') => (Throw e, log')
    end.

Definition emit (ev : Event) : Eff unit :=
  fun log => (Normal tt, log ++ [ev]).

(** Reading a property of a value that may be [undefined]. *)
Definition prop {O A : Type} (o : option O) (field : O -> A) : Eff A :=
  match o with
  | Some v => ret (field v)
  | None => throw TypeError
  end.

(** A host result that is either a value or a thrown error. *)
Definition orThrow {A : Type} (e : JsError) (o : option A) : Eff A :=
  match o with
  | Some v => ret v
  | None => throw e
  end.

(** [xs[i]]: out of range is [undefined]. *)
Definition index {A : Type} (xs : list (option A)) (i : nat) : option A :=
  match nth_error xs i with
  | Some v => v
  | None => None
  end.

End Model.

Arguments ITestItem_uri : clear implicits.
Arguments name {Payload} _.
Arguments params {Payload} _.
Arguments default {Payload} _.
Arguments items {Payload} _.
Arguments run {Payload} _.
Arguments debug {Payload} _.
Arguments label {Payload} _.
Arguments detail {Payload} _.
Arguments item {Payload} _.
Arguments WorkspaceFolder_uri {Uri} _.
Arguments Uri_parse {Payload Uri} _ _.
Arguments fsPath {Payload Uri} _ _.
Arguments getWorkspaceFolder {Payload Uri} _ _.
Arguments getConfiguration {Payload Uri} _ _.
Arguments path_join {Payload Uri} _ _ _.
Arguments pathExists {Payload Uri} _ _.
Arguments readFile {Payload Uri} _ _.
Arguments JSON_parse {Payload Uri} _ _.
Arguments JSON_stringify {Payload Uri} _ _.
Arguments showQuickPick {Payload Uri} _ _ _.
Arguments argumentLimit {Payload Uri} _.
Arguments WarningMessage {Payload} message.
Arguments QuickPick {Payload} choices placeHolder.
Arguments ret {Payload A} a _.
Arguments throw {Payload A} e _.
Arguments bind {Payload A B} m k _.
Arguments emit {Payload} ev _.
Arguments prop {Payload O A} o field _.
Arguments orThrow {Payload A} e o _.
Arguments index {A} xs i.

Declare Scope eff_scope.
Delimit Scope eff_scope with eff.
Notation "x <- m ;; k" := (bind m (fun x => k))
(at level 61, m at next level, right associativity) : eff_scope.
Notation "m ;; k" := (bind m (fun _ => k))
(at level 61, right associativity) : eff_scope.

(** ** The class [TestConfigManager] *)

Section Manager.

Context {Payload Uri : Type}.
Variable host : Host Payload Uri.

Local Open Scope eff_scope.

Local Notation "'Config'" := (IExecutionConfig Payload).
Local Notation "'Group'" := (IExecutionConfigGroup Payload).
Local Notation "'Choice'" := (IRunConfigQuickPick Payload).

(** The instance state: one [private readonly] field. *)
Record TestConfigManager : Type := {
  configRelativePath : string
}.

(** [constructor()] *)
Definition new_TestConfigManager : TestConfigManager :=
  {| configRelativePath := path_join host ".vscode" "launch.test.json" |}.

(** [get configPath()] *)
Definition configPath (this : TestConfigManager) : string :=
  configRelativePath this.

(** [window.showWarningMessage(message)]; the returned promise is dropped. *)
Definition window_showWarningMessage (message : string) : Eff Payload unit :=
  emit (WarningMessage message).

(** [await window.showQuickPick(choices, { placeHolder })] *)
Definition window_showQuickPick (choices : list Choice) (placeHolder : string)
  : Eff Payload (option Choice) :=
  emit (QuickPick choices placeHolder) ;;
  ret (showQuickPick host choices placeHolder).

(** The label of [configs[i]] (line 86). *)
Definition choice_label (i : nat) (config : Config) : string :=
  if truthy (name config)
  then interpolate (name config)
  else ("Configuration #" ++ Number_toString (i + 1))%string.

(** The [for] loop of [selectQuickPick] (lines 85-92), entered with the
    index at [i], [configs] being what is left of the array from [i] on
    and [choices] what has been pushed so far. *)
Fixpoint push_choices (i : nat) (configs : list Config) (choices : list Choice)
  : list Choice :=
  match configs with
  | [] => choices
  | config :: rest =>
      push_choices (S i) rest
        (choices ++ [ {| label := choice_label i config;
                         detail := JSON_stringify host config;
                         item := config |} ])
  end.

(** [private async selectQuickPick(configs)] *)
Definition selectQuickPick (configs : list Config) : Eff Payload Config :=
  let choices := push_choices 0 configs [] in
  selection <- window_showQuickPick choices "Select test config" ;;
  match selection with
  | None => throw (Error "Please specify the test config to use.")
  | Some s => ret (item s)
  end.

(** The [for ... of] loop of [selectDeprecatedConfig] (lines 73-75):
    [configItems.push(...config.items)] for each remaining group.  The
    spread hands every item to [push] as an argument of its own. *)
Fixpoint push_items (configs : list (option Group)) (configItems : list Config)
  : Eff Payload (list Config) :=
  match configs with
  | [] => ret configItems
  | config :: rest =>
      (* spreading a missing [items] is a TypeError as well *)
      its <- prop config items ;;
      its' <- orThrow TypeError its ;;
      if (length its' <=? argumentLimit host)%nat
      then push_items rest (configItems ++ its')
      else throw RangeError
  end.

(** [private async selectDeprecatedConfig(configs, usingDefaultConfig)] *)
Definition selectDeprecatedConfig (configs : list (option Group))
    (usingDefaultConfig : bool) : Eff Payload (option Config) :=
  if (length configs =? 0)%nat then ret None
  else if usingDefaultConfig then
    (* line 53: [configs.length !== 1 || !configs[0].default], the right
       operand being read only when the left one is false *)
    invalid <- (if negb (length configs =? 1)%nat then ret true
                else d <- prop (index configs 0) default ;;
                     ret (negb (truthy d))) ;;
    if (invalid : bool) then ret None
    else
      let runConfig := index configs 0 in
      (* line 57: [runConfig.items.filter(...)]; calling [filter] on a
         missing [items] is a TypeError *)
      its <- prop runConfig items ;;
      its' <- orThrow TypeError its ;;
      dflt <- prop runConfig default ;;
      let candidates :=
        filter (fun it : Config => strict_eq (name it) dflt) its' in
      if (length candidates =? 0)%nat then
        d <- prop runConfig default ;;
        window_showWarningMessage
          ("There is no config with name: " ++ interpolate d ++ ".")%string ;;
        ret None
      else
        (if (1 <? length candidates)%nat then
           d <- prop runConfig default ;;
           window_showWarningMessage
             ("Duplicate configs with default name: " ++ interpolate d ++ ".")%string
         else ret tt) ;;
        ret (nth_error candidates 0)
  else
    (if (1 <? length configs)%nat then
       window_showWarningMessage
         "It is not supported to run tests with config from multi root."
     else ret tt) ;;
    configItems <- push_items configs [] ;;
    c <- selectQuickPick configItems ;;
    ret (Some c).

(** [public async loadRunConfig(tests, isDebug, usingDefaultConfig)] *)
Definition loadRunConfig (this : TestConfigManager) (tests : list ITestItem)
    (isDebug usingDefaultConfig : bool) : Eff Payload (option Config) :=
  uri <- prop (nth_error tests 0) ITestItem_uri ;;
  match getWorkspaceFolder host (Uri_parse host uri) with
  | None => ret None
  | Some workspaceFolder =>
      let configs := getConfiguration host (WorkspaceFolder_uri workspaceFolder) in
      (* line 27: [configs && configs.length > 0], that is, the array is
         there and has a first element, [configs[0]] *)
      match configs with
      | Some ((config0 :: _) as configs') =>
          if usingDefaultConfig then ret (Some config0)
          else c <- selectQuickPick configs' ;; ret (Some c)
      | _ =>
          let deprecatedConfigs : list (option Group) := [] in
          let configFullPath :=
            path_join host (fsPath host (WorkspaceFolder_uri workspaceFolder))
              (configRelativePath this) in
          if negb (pathExists host configFullPath) then ret None
          else
            content <- orThrow SystemError (readFile host configFullPath) ;;
            deprecatedConfig <- orThrow SyntaxError (JSON_parse host content) ;;
            let deprecatedConfigs :=
              deprecatedConfigs ++
                [if isDebug then debug deprecatedConfig else run deprecatedConfig] in
            selectDeprecatedConfig deprecatedConfigs usingDefaultConfig
      end
  end.

(** [export const testConfigManager = new TestConfigManager()] *)
Definition testConfigManager : TestConfigManager := new_TestConfigManager.

End Manager.

Arguments configRelativePath _ : clear implicits.

(** ** Vocabulary of the statements *)

Section Vocabulary.

Context {Payload Uri : Type}.
Variable host : Host Payload Uri.

Local Notation "'Config'" := (IExecutionConfig Payload).
Local Notation "'Choice'" := (IRunConfigQuickPick Payload).

(** The placeholder and the messages, as the source spells them. *)
Definition placeHolder_text : string := "Select test config".
Definition dismissed_text : string := "Please specify the test config to use.".
Definition multi_root_text : string :=
  "It is not supported to run tests with config from multi root.".
Definition not_found_text (d : string) : string :=
  ("There is no config with name: " ++ d ++ ".")%string.
Definition duplicate_text (d : string) : string :=
  ("Duplicate configs with default name: " ++ d ++ ".")%string.

(** The entry pushed for [configs[i]], spelled out case by case. *)
Definition entry_at (i : nat) (c : Config) : Choice :=
  {| label := match name c with
              | Some n => if (n =? "")%string
                          then ("Configuration #" ++ Number_toString (i + 1))%string
                          else n
              | None => ("Configuration #" ++ Number_toString (i + 1))%string
              end;
     detail := JSON_stringify host c;
     item := c |}.

(** A computation is [framed] when it only appends to the log it is
    given and neither its completion nor what it appends depends on it. *)
Definition framed {A : Type} (m : Eff Payload A) : Prop :=
  forall h, m h = (fst (m []), h ++ snd (m [])).

(** The list can be spread into one call: it has no more elements than
    the engine takes arguments. *)
Definition spreadable (its : list Config) : Prop :=
  length its <= argumentLimit host.

(** The settings hold no usable list: [configs] is [undefined] or empty. *)
Definition new_schema_unset (wf : WorkspaceFolder Uri) : Prop :=
  getConfiguration host (WorkspaceFolder_uri wf) = None \/
  getConfiguration host (WorkspaceFolder_uri wf) = Some [].

(** The legacy file of a folder, [<folder>/.vscode/launch.test.json]. *)
Definition legacy_file (wf : WorkspaceFolder Uri) : string :=
  path_join host (fsPath host (WorkspaceFolder_uri wf))
    (path_join host ".vscode" "launch.test.json").

End Vocabulary.

Arguments framed {Payload A} m.

(** ** Vocabulary of the further properties *)

Section FurtherVocabulary.

Context {Payload Uri : Type}.
Variable host : Host Payload Uri.

(** The configuration carries the name [d]. *)
Definition named (d : string) (it : IExecutionConfig Payload) : bool :=
  match name it with
  | Some n => (n =? d)%string
  | None => false
  end.

(** A group the loops cannot read: it is [undefined] or has no [items]. *)
Definition unreadable (og : option (IExecutionConfigGroup Payload)) : Prop :=
  og = None \/ exists g, og = Some g /\ items g = None.

(** The user answers a prompt with one of the entries it was offered. *)
Definition answers_offered : Prop :=
  forall choices ph s, showQuickPick host choices ph = Some s -> In s choices.

(** The file a manager looks for in a folder (line 37). *)
Definition config_file (this : TestConfigManager) (wf : WorkspaceFolder Uri)
  : string :=
  path_join host (fsPath host (WorkspaceFolder_uri wf)) (configRelativePath this).

(** The group of a legacy document that the mode asks for (line 43). *)
Definition legacy_group (isDebug : bool) (doc : ITestConfig Payload)
  : option (IExecutionConfigGroup Payload) :=
  if isDebug then debug doc else run doc.

(** What a prompt over [choices] gives back to [loadRunConfig]. *)
Definition prompt_completion (choices : list (IRunConfigQuickPick Payload))
  : Completion (option (IExecutionConfig Payload)) :=
  match showQuickPick host choices placeHolder_text with
  | Some s => Normal (Some (item s))
  | None => Throw (Error dismissed_text)
  end.

(** A list of configurations the call can put before the user: the
    settings list when it is not empty, and otherwise the items of the group
    the mode asks for in the parsed legacy file. *)
Definition offered_list (this : TestConfigManager) (t : ITestItem)
    (isDebug : bool) (l : list (IExecutionConfig Payload)) : Prop :=
  exists wf,
    getWorkspaceFolder host (Uri_parse host (ITestItem_uri t)) = Some wf /\
    ((getConfiguration host (WorkspaceFolder_uri wf) = Some l /\ l <> []) \/
     (new_schema_unset host wf /\
      exists content doc g,
        readFile host (config_file this wf) = Some content /\
        JSON_parse host content = Some doc /\
        legacy_group isDebug doc = Some g /\
        items g = Some l)).

End FurtherVocabulary.

(** Two hosts run the same library code on the same engine: the functions
    of the language and of its packages, which keep no state. *)
Record same_library {Payload Uri : Type} (host1 host2 : Host Payload Uri) : Prop := {
  lib_Uri_parse : forall s, Uri_parse host1 s = Uri_parse host2 s;
  lib_fsPath : forall u, fsPath host1 u = fsPath host2 u;
  lib_path_join : forall a b, path_join host1 a b = path_join host2 a b;
  lib_JSON_parse : forall s, JSON_parse host1 s = JSON_parse host2 s;
  lib_JSON_stringify : forall c, JSON_stringify host1 c = JSON_stringify host2 c;
  lib_argumentLimit : argumentLimit host1 = argumentLimit host2
}.

(** Two hosts give the same answers except, possibly, about files. *)
Record same_answers_but_files {Payload Uri : Type}
    (host1 host2 : Host Payload Uri) : Prop := {
  sbf_Uri_parse : forall s, Uri_parse host1 s = Uri_parse host2 s;
  sbf_fsPath : forall u, fsPath host1 u = fsPath host2 u;
  sbf_getWorkspaceFolder :
    forall u, getWorkspaceFolder host1 u = getWorkspaceFolder host2 u;
  sbf_getConfiguration :
    forall u, getConfiguration host1 u = getConfiguration host2 u;
  sbf_path_join : forall a b, path_join host1 a b = path_join host2 a b;
  sbf_JSON_parse : forall s, JSON_parse host1 s = JSON_parse host2 s;
  sbf_JSON_stringify : forall c, JSON_stringify host1 c = JSON_stringify host2 c;
  sbf_showQuickPick :
    forall cs ph, showQuickPick host1 cs ph = showQuickPick host2 cs ph;
  sbf_argumentLimit : argumentLimit host1 = argumentLimit host2
}.

(** ** A concrete host, used to run the model on examples

  Configurations carry a number as their payload, the only workspace
  folder is [/ws], the settings hold no configuration list, the legacy
  file exists and holds [doc], and the user picks the first entry. *)

Module Sample.

Definition cfg (n : option string) (k : nat) : IExecutionConfig nat :=
  {| name := n; params := k |}.

Definition X1 := cfg (Some "X") 1.
Definition X2 := cfg (Some "X") 2.
Definition Y3 := cfg (Some "Y") 3.
Definition anon4 := cfg None 4.
Definition empty5 := cfg (Some "") 5.

Definition runGroup : IExecutionConfigGroup nat :=
  {| default := Some "X"; items := Some [X1; X2; Y3] |}.

Definition debugGroup : IExecutionConfigGroup nat :=
  {| default := Some "Z"; items := Some [X1] |}.

Definition doc : ITestConfig nat :=
  {| run := Some runGroup; debug := Some debugGroup |}.

(** A document without the [debug] key. *)
Definition docNoDebug : ITestConfig nat :=
  {| run := Some runGroup; debug := None |}.

Definition stringify (c : IExecutionConfig nat) : string :=
  ("{" ++ interpolate (name c) ++ ":" ++ Number_toString (params c) ++ "}")%string.

Definition join (a b : string) : string := (a ++ "/" ++ b)%string.

Definition legacyPath : string := "/ws/.vscode/launch.test.json".

(** The host is given by what the settings hold, whether the legacy file
    exists, what parsing its text gives and what the user answers. *)
Definition mkHost (settings : option (list (IExecutionConfig nat)))
    (fileExists : bool) (parsed : option (ITestConfig nat))
    (answer : list (IRunConfigQuickPick nat) -> option (IRunConfigQuickPick nat))
  : Host nat string :=
  {| Uri_parse := fun s => s;
     fsPath := fun u => u;
     getWorkspaceFolder := fun u =>
       if (u =? "/ws")%string then Some {| WorkspaceFolder_uri := "/ws" |} else None;
     getConfiguration := fun _ => settings;
     path_join := join;
     pathExists := fun p => if (p =? legacyPath)%string then fileExists else false;
     readFile := fun p => if (p =? legacyPath)%string then Some "text" else None;
     JSON_parse := fun _ => parsed;
     JSON_stringify := stringify;
     showQuickPick := fun choices _ => answer choices;
     argumentLimit := 1000 |}.

Definition pickFirst (choices : list (IRunConfigQuickPick nat)) :=
  nth_error choices 0.

Definition dismiss (choices : list (IRunConfigQuickPick nat))
  : option (IRunConfigQuickPick nat) := None.

Definition legacyHost := mkHost None true (Some doc) pickFirst.
Definition newHost := mkHost (Some [Y3; X1]) true (Some doc) pickFirst.

Definition test : ITestItem := {| ITestItem_uri := "/ws" |}.
Definition stray : ITestItem := {| ITestItem_uri := "/elsewhere" |}.

Definition ws : WorkspaceFolder string := {| WorkspaceFolder_uri := "/ws" |}.

Definition groupAB : IExecutionConfigGroup nat :=
  {| default := None; items := Some [X1; X2] |}.

Definition groupC : IExecutionConfigGroup nat :=
  {| default := Some ""; items := Some [Y3] |}.

Definition dismissHost := mkHost None true (Some doc) dismiss.
Definition noFileHost := mkHost None false (Some doc) pickFirst.
Definition badFileHost := mkHost (Some []) true None pickFirst.
Definition noDebugHost := mkHost None true (Some docNoDebug) pickFirst.

(** A group whose default name is carried by its last item only. *)
Definition groupY : IExecutionConfigGroup nat :=
  {| default := Some "Y"; items := Some [X1; X2; Y3] |}.


(** A host with other files: [base] with its two file operations replaced. *)
Definition withFiles (base : Host nat string) (fileExists : string -> bool)
    (read : string -> option string) : Host nat string :=
  {| Uri_parse := Uri_parse base;
     fsPath := fsPath base;
     getWorkspaceFolder := getWorkspaceFolder base;
     getConfiguration := getConfiguration base;
     path_join := path_join base;
     pathExists := fileExists;
     readFile := read;
     JSON_parse := JSON_parse base;
     JSON_stringify := JSON_stringify base;
     showQuickPick := showQuickPick base;
     argumentLimit := argumentLimit base |}.

(** The legacy file exists and cannot be read. *)
Definition unreadableHost : Host nat string :=
  withFiles legacyHost (fun p => (p =? legacyPath)%string) (fun _ => None).

(** [legacyHost] on an engine that takes two arguments at most, to keep
    the runs past the limit short. *)
Definition smallEngineHost : Host nat string :=
  {| Uri_parse := Uri_parse legacyHost;
     fsPath := fsPath legacyHost;
     getWorkspaceFolder := getWorkspaceFolder legacyHost;
     getConfiguration := getConfiguration legacyHost;
     path_join := path_join legacyHost;
     pathExists := pathExists legacyHost;
     readFile := readFile legacyHost;
     JSON_parse := JSON_parse legacyHost;
     JSON_stringify := JSON_stringify legacyHost;
     showQuickPick := showQuickPick legacyHost;
     argumentLimit := 2 |}.

(** A workspace that differs from the one of [legacyHost] wherever a call
    for [test] does not look: a second folder resolves and has settings,
    there is a second file, and a prompt with another placeholder is
    dismissed. *)
Definition otherWorkspaceHost : Host nat string :=
  {| Uri_parse := fun s => s;
     fsPath := fun u => u;
     getWorkspaceFolder := fun u =>
       if (u =? "/ws")%string then Some ws
       else if (u =? "/elsewhere")%string
            then Some {| WorkspaceFolder_uri := "/elsewhere" |}
            else None;
     getConfiguration := fun u => if (u =? "/ws")%string then None else Some [Y3];
     path_join := join;
     pathExists := fun p => (p =? legacyPath)%string || (p =? "/ws/pom.xml")%string;
     readFile := fun p =>
       if (p =? legacyPath)%string then Some "text" else Some "<project/>";
     JSON_parse := fun _ => Some doc;
     JSON_stringify := stringify;
     showQuickPick := fun choices ph =>
       if (ph =? "Select test config")%string then nth_error choices 0 else None;
     argumentLimit := 1000 |}.

(** The folder holds a second file next to the legacy one. *)
Definition clutteredHost : Host nat string :=
  withFiles legacyHost
    (fun p => (p =? legacyPath)%string || (p =? "/ws/pom.xml")%string)
    (fun p => if (p =? legacyPath)%string then Some "text" else Some "<project/>").

End Sample.

(** * Properties *)

Section Properties.

Context {Payload Uri : Type}.
Variable host : Host Payload Uri.

Local Notation "'Config'" := (IExecutionConfig Payload).
Local Notation "'Group'" := (IExecutionConfigGroup Payload).
Local Notation "'Choice'" := (IRunConfigQuickPick Payload).

(** ** Truthiness and strict equality *)

Lemma truthy_true (v : option string) :
  truthy v = true <-> exists s, v = Some s /\ s <> "".
Proof.
  destruct v as [s|]; simpl.
  - rewrite negb_true_iff. split.
    + intros H. exists s. split; [reflexivity|].
      intros ->. discriminate.
    + intros (s' & [= <-] & Hne).
      destruct (String.eqb_spec s ""); congruence.
  - split; [discriminate | intros (s & [=] & _)].
Qed.

Lemma truthy_false (v : option string) :
  truthy v = false <-> v = None \/ v = Some "".
Proof.
  destruct v as [s|]; simpl.
  - rewrite negb_false_iff, String.eqb_eq. split.
    + intros ->. now right.
    + intros [[=] | [= ->]]. reflexivity.
  - split; auto.
Qed.

Lemma strict_eq_Some (v : option string) (d : string) :
  strict_eq v (Some d) = true <-> v = Some d.
Proof.
  destruct v as [s|]; simpl.
  - rewrite String.eqb_eq. split; congruence.
  - split; discriminate.
Qed.

Lemma filter_none {A : Type} (f : A -> bool) (l : list A) :
  (forall x, In x l -> f x = false) -> filter f l = [].
Proof.
  induction l as [|a l IH]; simpl; intros H; [reflexivity|].
  rewrite (H a (or_introl eq_refl)). apply IH. intros x Hx. apply H. now right.
Qed.

Lemma filter_some {A : Type} (f : A -> bool) (l : list A) (y : A) :
  In y l -> f y = true -> filter f l <> [].
Proof.
  intros Hin Hy Hnil.
  assert (Hf : In y (filter f l)) by (apply filter_In; auto).
  rewrite Hnil in Hf. exact Hf.
Qed.

Lemma not_named_mismatch (d : string) (l : list Config) :
  (forall x, In x l -> name x <> Some d) ->
  forall x, In x l -> strict_eq (name x) (Some d) = false.
Proof.
  intros H x Hx. apply not_true_is_false. rewrite strict_eq_Some. auto.
Qed.

(** ** The loop of [selectQuickPick] *)

Lemma choice_label_cases (i : nat) (c : Config) :
  choice_label i c = label (entry_at host i c).
Proof.
  unfold choice_label, entry_at, truthy. simpl.
  destruct (name c) as [n|]; [|reflexivity].
  destruct (n =? "")%string; reflexivity.
Qed.

Lemma push_choices_acc (configs : list Config) :
  forall i acc,
    push_choices host i configs acc = acc ++ push_choices host i configs [].
Proof.
  induction configs as [|c cs IH]; intros i acc; simpl.
  - now rewrite app_nil_r.
  - rewrite (IH (S i) (acc ++ _)), (IH (S i) [_]), <- app_assoc. reflexivity.
Qed.

Lemma push_choices_cons (i : nat) (c : Config) (cs : list Config) :
  push_choices host i (c :: cs) [] = entry_at host i c :: push_choices host (S i) cs [].
Proof.
  simpl. rewrite push_choices_acc. simpl.
  rewrite choice_label_cases. reflexivity.
Qed.

Lemma push_choices_length (configs : list Config) :
  forall i, length (push_choices host i configs []) = length configs.
Proof.
  induction configs as [|c cs IH]; intros i; [reflexivity|].
  rewrite push_choices_cons. simpl. now rewrite IH.
Qed.

Lemma push_choices_nth (configs : list Config) :
  forall i k,
    nth_error (push_choices host i configs []) k =
    option_map (entry_at host (i + k)) (nth_error configs k).
Proof.
  induction configs as [|c cs IH]; intros i k.
  - destruct k; reflexivity.
  - rewrite push_choices_cons. destruct k as [|k]; simpl.
    + now rewrite Nat.add_0_r.
    + rewrite IH. now rewrite Nat.add_succ_r.
Qed.

Lemma push_choices_items (configs : list Config) :
  forall i, map item (push_choices host i configs []) = configs.
Proof.
  induction configs as [|c cs IH]; intros i; [reflexivity|].
  rewrite push_choices_cons. simpl. now rewrite IH.
Qed.

(** What one call of [selectQuickPick] does, from any log. *)
Lemma selectQuickPick_run (configs : list Config) (h : list (Event Payload)) :
  selectQuickPick host configs h =
  (match showQuickPick host (push_choices host 0 configs []) placeHolder_text with
   | Some s => Normal (item s)
   | None => Throw (Error dismissed_text)
   end,
   h ++ [QuickPick (push_choices host 0 configs []) placeHolder_text]).
Proof.
  unfold selectQuickPick, window_showQuickPick, bind, emit, ret, throw.
  unfold placeHolder_text, dismissed_text.
  destruct (showQuickPick host _ _); reflexivity.
Qed.

(** ** The loop of [selectDeprecatedConfig] *)

Lemma spreadable_leb (its : list Config) :
  spreadable host its -> (length its <=? argumentLimit host)%nat = true.
Proof. intros H. now apply Nat.leb_le. Qed.

Lemma not_spreadable_leb (its : list Config) :
  argumentLimit host < length its ->
  (length its <=? argumentLimit host)%nat = false.
Proof. intros H. now apply Nat.leb_gt. Qed.


Lemma push_items_undefined_group (rest : list (option Group)) (acc : list Config)
    (h : list (Event Payload)) :
  push_items host (None :: rest) acc h = (Throw TypeError, h).
Proof. reflexivity. Qed.

Lemma push_items_over_limit (g : Group) (its : list Config)
    (rest : list (option Group)) (acc : list Config) (h : list (Event Payload)) :
  items g = Some its -> argumentLimit host < length its ->
  push_items host (Some g :: rest) acc h = (Throw RangeError, h).
Proof.
  intros Hits Hover. simpl. unfold bind, prop, orThrow, ret.
  now rewrite Hits, (not_spreadable_leb its Hover).
Qed.

(** ** Calls do not read the log *)

Lemma framed_ret {A : Type} (a : A) : framed (@ret Payload A a).
Proof. intros h. unfold ret. simpl. now rewrite app_nil_r. Qed.

Lemma framed_throw {A : Type} (e : JsError) : framed (@throw Payload A e).
Proof. intros h. unfold throw. simpl. now rewrite app_nil_r. Qed.

Lemma framed_emit (ev : Event Payload) : framed (emit ev).
Proof. intros h. reflexivity. Qed.

Lemma framed_bind {A B : Type} (m : Eff Payload A) (k : A -> Eff Payload B) :
  framed m -> (forall a, framed (k a)) -> framed (bind m k).
Proof.
  intros Hm Hk h. unfold bind. rewrite (Hm h).
  destruct (m []) as [[a|e] l]; simpl.
  - rewrite (Hk a (h ++ l)), (Hk a l). simpl. now rewrite app_assoc.
  - reflexivity.
Qed.

Lemma framed_prop {O A : Type} (o : option O) (f : O -> A) :
  framed (@prop Payload O A o f).
Proof. destruct o; [apply framed_ret | apply framed_throw]. Qed.

Lemma framed_orThrow {A : Type} (e : JsError) (o : option A) :
  framed (@orThrow Payload A e o).
Proof. destruct o; [apply framed_ret | apply framed_throw]. Qed.

Lemma framed_if {A : Type} (b : bool) (m1 m2 : Eff Payload A) :
  framed m1 -> framed m2 -> framed (if b then m1 else m2).
Proof. destruct b; auto. Qed.

Create HintDb framed discriminated.
Hint Resolve framed_ret framed_throw framed_emit framed_prop framed_orThrow
  framed_if : framed.
Hint Extern 2 (framed (bind _ _)) => apply framed_bind; [|intro] : framed.

Lemma framed_selectQuickPick (configs : list Config) :
  framed (selectQuickPick host configs).
Proof.
  intros h. rewrite !selectQuickPick_run. reflexivity.
Qed.

Lemma framed_push_items (configs : list (option Group)) :
  forall acc, framed (push_items host configs acc).
Proof.
  induction configs as [|c cs IH]; intros acc; simpl; auto with framed.
Qed.

Hint Resolve framed_selectQuickPick framed_push_items : framed.

Lemma framed_selectDeprecatedConfig (configs : list (option Group)) (u : bool) :
  framed (selectDeprecatedConfig host configs u).
Proof.
  unfold selectDeprecatedConfig, window_showWarningMessage.
  repeat (auto with framed;
          match goal with
          | |- framed (if ?b then _ else _) => destruct b
          | |- framed (bind _ _) => apply framed_bind; [|intro]
          end).
Qed.

Lemma framed_loadRunConfig (this : TestConfigManager) (tests : list ITestItem)
    (isDebug u : bool) :
  framed (loadRunConfig host this tests isDebug u).
Proof.
  unfold loadRunConfig.
  apply framed_bind; [auto with framed | intros uri].
  destruct (getWorkspaceFolder host _) as [wf|]; [|auto with framed].
  assert (Hlegacy : forall ds,
    framed (if negb (pathExists host
                       (path_join host (fsPath host (WorkspaceFolder_uri wf))
                          (configRelativePath this)))
            then ret None
            else bind (orThrow SystemError (readFile host
                         (path_join host (fsPath host (WorkspaceFolder_uri wf))
                            (configRelativePath this))))
                   (fun content =>
                      bind (orThrow SyntaxError (JSON_parse host content))
                        (fun deprecatedConfig =>
                           selectDeprecatedConfig host
                             (ds ++ [if isDebug then debug deprecatedConfig
                                     else run deprecatedConfig]) u)))).
  { intros ds. apply framed_if; [auto with framed|].
    apply framed_bind; [auto with framed | intros content].
    apply framed_bind; [auto with framed | intros d].
    apply framed_selectDeprecatedConfig. }
  destruct (getConfiguration host _) as [[|c0 cs]|].
  - apply (Hlegacy []).
  - destruct u; [auto with framed|].
    apply framed_bind; [apply framed_selectQuickPick | auto with framed].
  - apply (Hlegacy []).
Qed.

(** ** Default mode of [selectDeprecatedConfig] *)

(** With one group that has a truthy default and items, default mode is
    decided by the candidates alone. *)
Lemma selectDeprecatedConfig_default_run (g : Group) (d : string)
    (its : list Config) (h : list (Event Payload)) :
  default g = Some d -> d <> "" -> items g = Some its ->
  let candidates := filter (fun it : Config => strict_eq (name it) (Some d)) its in
  selectDeprecatedConfig host [Some g] true h =
  match candidates with
  | [] => (Normal None, h ++ [WarningMessage (not_found_text d)])
  | [c] => (Normal (Some c), h)
  | c :: _ :: _ => (Normal (Some c), h ++ [WarningMessage (duplicate_text d)])
  end.
Proof.
  intros Hd Hne Hits candidates.
  assert (Ht : truthy (Some d) = true) by (apply truthy_true; eauto).
  unfold selectDeprecatedConfig, window_showWarningMessage, bind, prop, orThrow,
    index, ret, emit. simpl.
  rewrite Hd, Ht, Hits. simpl. fold candidates.
  destruct candidates as [|c [|c' cs]]; reflexivity.
Qed.

(** C2. Default mode, one group whose default name is carried by more
    than one item: the result is the first item of the group, in item
    order, that carries the name, and the log gains exactly one warning,
    the duplicate-name one. *)
Theorem selectDeprecatedConfig_duplicate_default (g : Group) (d : string)
    (pre post : list Config) (c : Config) (h : list (Event Payload)) :
  default g = Some d -> d <> "" ->
  items g = Some (pre ++ c :: post) ->
  (forall x, In x pre -> name x <> Some d) ->
  name c = Some d ->
  (exists y, In y post /\ name y = Some d) ->
  selectDeprecatedConfig host [Some g] true h =
  (Normal (Some c), h ++ [WarningMessage (duplicate_text d)]).
Proof.
  intros Hd Hne Hits Hpre Hc (y & Hy & Hyd).
  rewrite (selectDeprecatedConfig_default_run g d _ h Hd Hne Hits).
  rewrite filter_app, (filter_none _ pre (not_named_mismatch d pre Hpre)).
  simpl. rewrite (proj2 (strict_eq_Some (name c) d) Hc).
  destruct (filter _ post) as [|c' cs] eqn:Hpost; [|reflexivity].
  exfalso. revert Hpost. apply (filter_some _ post y Hy).
  now apply strict_eq_Some.
Qed.

(** C4. Default mode, one group whose default name is carried by no
    item: the result is "none" and the log gains exactly one warning, the
    "no config with name" one. *)
Theorem selectDeprecatedConfig_default_not_found (g : Group) (d : string)
    (its : list Config) (h : list (Event Payload)) :
  default g = Some d -> d <> "" ->
  items g = Some its ->
  (forall x, In x its -> name x <> Some d) ->
  selectDeprecatedConfig host [Some g] true h =
  (Normal None, h ++ [WarningMessage (not_found_text d)]).
Proof.
  intros Hd Hne Hits Hnone.
  rewrite (selectDeprecatedConfig_default_run g d its h Hd Hne Hits).
  now rewrite (filter_none _ its (not_named_mismatch d its Hnone)).
Qed.

(** C3. Default mode selects only from exactly one group with a
    non-empty default name: with more than one group, or with one group
    whose default name is absent or empty, the call returns "none"
    without throwing and without touching the log; and whenever a
    configuration is returned there was exactly one group and its default
    name was non-empty. *)
Theorem selectDeprecatedConfig_default_gate (groups : list (option Group))
    (h : list (Event Payload)) :
  (1 < length groups ->
   selectDeprecatedConfig host groups true h = (Normal None, h)) /\
  (forall g, groups = [Some g] ->
             default g = None \/ default g = Some "" ->
             selectDeprecatedConfig host groups true h = (Normal None, h)) /\
  (forall c h', selectDeprecatedConfig host groups true h = (Normal (Some c), h') ->
                exists g d, groups = [Some g] /\ default g = Some d /\ d <> "").
Proof.
  split; [|split].
  - intros Hlen. destruct groups as [|g1 [|g2 gs]]; simpl in Hlen; try lia.
    reflexivity.
  - intros g -> Hd. apply truthy_false in Hd.
    unfold selectDeprecatedConfig, bind, prop, index, ret. simpl.
    now rewrite Hd.
  - intros c h' Hrun. destruct groups as [|[g|] [|g2 gs]]; try discriminate.
    exists g. destruct (truthy (default g)) eqn:Ht.
    + apply truthy_true in Ht. destruct Ht as (d & Hd & Hne). eauto.
    + exfalso. revert Hrun.
      unfold selectDeprecatedConfig, bind, prop, index, ret. simpl.
      now rewrite Ht.
Qed.

(** ** Interactive mode of [selectDeprecatedConfig] *)

Lemma bind_run {A B : Type} (m : Eff Payload A) (k : A -> Eff Payload B)
    (h : list (Event Payload)) :
  bind m k h =
  match m h with
  | (Normal a, l) => k a l
  | (Throw e, l) => (Throw e, l)
  end.
Proof. reflexivity. Qed.



(** ** [selectQuickPick] *)

(** C6. A dismissed prompt makes [selectQuickPick] throw the
    "Please specify the test config to use." error: the call has no way
    to end with "none".  When an entry is chosen the call returns the
    configuration carried by that entry, which is the configuration at
    the position of the entry among the offered ones. *)
Theorem selectQuickPick_dismissed_or_chosen (configs : list Config)
    (h : list (Event Payload)) :
  exists choices,
    snd (selectQuickPick host configs h) = h ++ [QuickPick choices placeHolder_text] /\
    (showQuickPick host choices placeHolder_text = None ->
     fst (selectQuickPick host configs h) = Throw (Error dismissed_text)) /\
    (forall s, showQuickPick host choices placeHolder_text = Some s ->
               fst (selectQuickPick host configs h) = Normal (item s) /\
               forall k, nth_error choices k = Some s ->
                         nth_error configs k = Some (item s)).
Proof.
  exists (push_choices host 0 configs []).
  rewrite selectQuickPick_run. simpl.
  split; [reflexivity|]. split.
  - intros ->. reflexivity.
  - intros s ->. split; [reflexivity|].
    intros k Hk. rewrite push_choices_nth in Hk.
    destruct (nth_error configs k) as [c|]; [|discriminate].
    simpl in Hk. injection Hk as <-. reflexivity.
Qed.

(** C7. The prompt of [selectQuickPick] is offered one entry per
    configuration, in the order of the configurations.  The entry at
    0-based position [k] carries the configuration itself and its
    serialization as detail; its label is the name of the configuration
    when there is a non-empty one, and [Configuration #] followed by the
    decimal digits of [k + 1] otherwise. *)
Theorem selectQuickPick_entries (configs : list Config) (h : list (Event Payload)) :
  exists choices,
    snd (selectQuickPick host configs h) = h ++ [QuickPick choices placeHolder_text] /\
    length choices = length configs /\
    forall k c, nth_error configs k = Some c ->
      exists e, nth_error choices k = Some e /\
        item e = c /\
        detail e = JSON_stringify host c /\
        (forall n, name c = Some n -> n <> "" -> label e = n) /\
        (name c = None \/ name c = Some "" ->
         label e = ("Configuration #" ++ Number_toString (k + 1))%string).
Proof.
  exists (push_choices host 0 configs []).
  rewrite selectQuickPick_run. simpl.
  split; [reflexivity|]. split; [apply push_choices_length|].
  intros k c Hk. exists (entry_at host k c).
  rewrite push_choices_nth, Hk. simpl.
  repeat split.
  - intros n Hn Hne. rewrite Hn.
    destruct (String.eqb_spec n ""); congruence.
  - intros [Hn | Hn]; rewrite Hn; reflexivity.
Qed.

(** ** [loadRunConfig] *)

(** The legacy path of [loadRunConfig], step by step. *)
Lemma loadRunConfig_legacy_run (t : ITestItem) (tests : list ITestItem)
    (isDebug u : bool) (wf : WorkspaceFolder Uri) (h : list (Event Payload)) :
  getWorkspaceFolder host (Uri_parse host (ITestItem_uri t)) = Some wf ->
  new_schema_unset host wf ->
  loadRunConfig host (testConfigManager host) (t :: tests) isDebug u h =
  if pathExists host (legacy_file host wf) then
    match readFile host (legacy_file host wf) with
    | None => (Throw SystemError, h)
    | Some content =>
        match JSON_parse host content with
        | None => (Throw SyntaxError, h)
        | Some doc =>
            selectDeprecatedConfig host
              [if isDebug then debug doc else run doc] u h
        end
    end
  else (Normal None, h).
Proof.
  intros Hwf Hunset.
  unfold loadRunConfig. rewrite bind_run. simpl. rewrite Hwf.
  change (configRelativePath (testConfigManager host))
    with (path_join host ".vscode" "launch.test.json").
  fold (legacy_file host wf).
  assert (Hlegacy :
    (if negb (pathExists host (legacy_file host wf)) then ret None
     else bind (orThrow SystemError (readFile host (legacy_file host wf)))
            (fun content =>
               bind (orThrow SyntaxError (JSON_parse host content))
                 (fun deprecatedConfig =>
                    selectDeprecatedConfig host
                      ([] ++ [if isDebug then debug deprecatedConfig
                              else run deprecatedConfig]) u))) h =
    if pathExists host (legacy_file host wf) then
      match readFile host (legacy_file host wf) with
      | None => (Throw SystemError, h)
      | Some content =>
          match JSON_parse host content with
          | None => (Throw SyntaxError, h)
          | Some doc =>
              selectDeprecatedConfig host
                [if isDebug then debug doc else run doc] u h
          end
      end
    else (Normal None, h)).
  { destruct (pathExists host (legacy_file host wf)); [|reflexivity].
    cbn [negb]. rewrite bind_run.
    destruct (readFile host (legacy_file host wf)) as [content|]; [|reflexivity].
    simpl. rewrite bind_run.
    destruct (JSON_parse host content) as [doc|]; reflexivity. }
  destruct Hunset as [-> | ->]; exact Hlegacy.
Qed.

(** C1. When the settings hold a non-empty configuration list,
    [loadRunConfig] in default mode returns the first element of the list
    whatever the list contains, and the log is unchanged: no prompt and no
    warning. *)
Theorem loadRunConfig_default_new_schema (this : TestConfigManager)
    (t : ITestItem) (tests : list ITestItem) (isDebug : bool)
    (wf : WorkspaceFolder Uri) (c : Config) (configs : list Config)
    (h : list (Event Payload)) :
  getWorkspaceFolder host (Uri_parse host (ITestItem_uri t)) = Some wf ->
  getConfiguration host (WorkspaceFolder_uri wf) = Some (c :: configs) ->
  loadRunConfig host this (t :: tests) isDebug true h = (Normal (Some c), h).
Proof.
  intros Hwf Hcfg. unfold loadRunConfig. rewrite bind_run. simpl.
  now rewrite Hwf, Hcfg.
Qed.

(** C8. [loadRunConfig] returns "none" without throwing when the first
    test item has no workspace folder, and when the settings hold no
    usable list and the legacy file [.vscode/launch.test.json] does not
    exist; when the legacy file exists and is read but does not parse, the
    call throws the parse error and nothing else happens. *)
Theorem loadRunConfig_none_or_parse_failure (t : ITestItem)
    (tests : list ITestItem) (isDebug u : bool) (h : list (Event Payload)) :
  (getWorkspaceFolder host (Uri_parse host (ITestItem_uri t)) = None ->
   loadRunConfig host (testConfigManager host) (t :: tests) isDebug u h =
   (Normal None, h)) /\
  (forall wf,
     getWorkspaceFolder host (Uri_parse host (ITestItem_uri t)) = Some wf ->
     new_schema_unset host wf ->
     pathExists host (legacy_file host wf) = false ->
     loadRunConfig host (testConfigManager host) (t :: tests) isDebug u h =
     (Normal None, h)) /\
  (forall wf content,
     getWorkspaceFolder host (Uri_parse host (ITestItem_uri t)) = Some wf ->
     new_schema_unset host wf ->
     pathExists host (legacy_file host wf) = true ->
     readFile host (legacy_file host wf) = Some content ->
     JSON_parse host content = None ->
     loadRunConfig host (testConfigManager host) (t :: tests) isDebug u h =
     (Throw SyntaxError, h)).
Proof.
  split; [|split].
  - intros Hwf. unfold loadRunConfig. rewrite bind_run. simpl.
    now rewrite Hwf.
  - intros wf Hwf Hunset Hex.
    rewrite (loadRunConfig_legacy_run t tests isDebug u wf h Hwf Hunset).
    now rewrite Hex.
  - intros wf content Hwf Hunset Hex Hread Hparse.
    rewrite (loadRunConfig_legacy_run t tests isDebug u wf h Hwf Hunset).
    now rewrite Hex, Hread, Hparse.
Qed.

(** C10. When the legacy document parses but lacks the group the mode
    asks for, [loadRunConfig] throws a [TypeError] in default mode and in
    interactive mode alike; it does not return "none". *)
Theorem loadRunConfig_missing_group (t : ITestItem) (tests : list ITestItem)
    (isDebug u : bool) (wf : WorkspaceFolder Uri) (content : string)
    (doc : ITestConfig Payload) (h : list (Event Payload)) :
  getWorkspaceFolder host (Uri_parse host (ITestItem_uri t)) = Some wf ->
  new_schema_unset host wf ->
  pathExists host (legacy_file host wf) = true ->
  readFile host (legacy_file host wf) = Some content ->
  JSON_parse host content = Some doc ->
  (if isDebug then debug doc else run doc) = None ->
  loadRunConfig host (testConfigManager host) (t :: tests) isDebug u h =
  (Throw TypeError, h).
Proof.
  intros Hwf Hunset Hex Hread Hparse Hmissing.
  rewrite (loadRunConfig_legacy_run t tests isDebug u wf h Hwf Hunset).
  rewrite Hex, Hread, Hparse, Hmissing.
  destruct u; reflexivity.
Qed.

End Properties.

(** * Further properties *)

Section Further.

Context {Payload Uri : Type}.
Variable host : Host Payload Uri.

Local Notation "'Config'" := (IExecutionConfig Payload).
Local Notation "'Group'" := (IExecutionConfigGroup Payload).
Local Notation "'Choice'" := (IRunConfigQuickPick Payload).

(** ** Lists and names *)

Lemma find_filter_head {A : Type} (f : A -> bool) (l : list A) :
  find f l = nth_error (filter f l) 0.
Proof.
  induction l as [|a l IH]; simpl; [reflexivity|].
  destruct (f a); [reflexivity | exact IH].
Qed.

Lemma strict_eq_named (d : string) (it : Config) :
  strict_eq (name it) (Some d) = named d it.
Proof. unfold named. destruct (name it); reflexivity. Qed.

Lemma named_true (d : string) (it : Config) :
  named d it = true <-> name it = Some d.
Proof. rewrite <- strict_eq_named. apply strict_eq_Some. Qed.

Lemma filter_named (d : string) (its : list Config) :
  filter (fun it : Config => strict_eq (name it) (Some d)) its =
  filter (named d) its.
Proof. apply filter_ext. intros it. apply strict_eq_named. Qed.

Lemma truthy_Some (d : string) : d <> "" -> truthy (Some d) = true.
Proof. intros Hne. apply truthy_true. eauto. Qed.

(** ** Default mode with one group, in full *)

Lemma selectDeprecatedConfig_default_single (g : Group) (h : list (Event Payload)) :
  selectDeprecatedConfig host [Some g] true h =
  if truthy (default g) then
    match items g with
    | None => (Throw TypeError, h)
    | Some its =>
        match filter (named (interpolate (default g))) its with
        | [] =>
            (Normal None,
             h ++ [WarningMessage (not_found_text (interpolate (default g)))])
        | [c] => (Normal (Some c), h)
        | c :: _ :: _ =>
            (Normal (Some c),
             h ++ [WarningMessage (duplicate_text (interpolate (default g)))])
        end
    end
  else (Normal None, h).
Proof.
  destruct (truthy (default g)) eqn:Ht.
  - destruct (proj1 (truthy_true _) Ht) as (d & Hd & Hne).
    destruct (items g) as [its|] eqn:Hits.
    + rewrite (selectDeprecatedConfig_default_run host g d its h Hd Hne Hits).
      rewrite Hd. simpl interpolate. cbv zeta. rewrite filter_named.
      reflexivity.
    + unfold selectDeprecatedConfig, bind, prop, orThrow, index, ret, throw.
      simpl. rewrite Ht, Hits. reflexivity.
  - unfold selectDeprecatedConfig, bind, prop, index, ret. simpl.
    now rewrite Ht.
Qed.

(** X1. Default mode, one group whose default name is carried by exactly
    one item: that item is returned and the log is untouched, so nothing is
    shown to the user. *)
Theorem selectDeprecatedConfig_single_match (g : Group) (d : string)
    (pre post : list Config) (c : Config) (h : list (Event Payload)) :
  default g = Some d -> d <> "" ->
  items g = Some (pre ++ c :: post) ->
  name c = Some d ->
  (forall x, In x pre -> name x <> Some d) ->
  (forall x, In x post -> name x <> Some d) ->
  selectDeprecatedConfig host [Some g] true h = (Normal (Some c), h).
Proof.
  intros Hd Hne Hits Hc Hpre Hpost.
  rewrite (selectDeprecatedConfig_default_run host g d _ h Hd Hne Hits).
  rewrite filter_app, (filter_none _ pre (not_named_mismatch d pre Hpre)).
  simpl. rewrite (proj2 (strict_eq_Some (name c) d) Hc).
  now rewrite (filter_none _ post (not_named_mismatch d post Hpost)).
Qed.

(** X2. Default mode, one group with a non-empty default name and items:
    whatever the number of items carrying the name, the call returns what a
    left-to-right search for the name finds, "none" when it finds nothing. *)
Theorem selectDeprecatedConfig_default_first_named (g : Group) (d : string)
    (its : list Config) (h : list (Event Payload)) :
  default g = Some d -> d <> "" ->
  items g = Some its ->
  fst (selectDeprecatedConfig host [Some g] true h) = Normal (find (named d) its).
Proof.
  intros Hd Hne Hits.
  rewrite selectDeprecatedConfig_default_single, Hd, Hits, (truthy_Some d Hne).
  simpl interpolate. rewrite find_filter_head.
  destruct (filter (named d) its) as [|c [|c' cs]]; reflexivity.
Qed.

(** X3. Default mode never prompts: whatever the groups, the call appends
    nothing to the log or exactly one warning message. *)
Theorem selectDeprecatedConfig_default_never_prompts
    (groups : list (option Group)) (h : list (Event Payload)) :
  exists evs,
    snd (selectDeprecatedConfig host groups true h) = h ++ evs /\
    (evs = [] \/ exists m, evs = [WarningMessage m]).
Proof.
  destruct groups as [|[g|] [|g2 gs]];
    try (exists []; rewrite app_nil_r; split; [reflexivity | now left]).
  rewrite selectDeprecatedConfig_default_single.
  destruct (truthy (default g));
    [|exists []; rewrite app_nil_r; split; [reflexivity | now left]].
  destruct (items g) as [its|];
    [|exists []; rewrite app_nil_r; split; [reflexivity | now left]].
  destruct (filter _ its) as [|c [|c' cs]].
  - eexists. split; [reflexivity | right; eauto].
  - exists []. rewrite app_nil_r. split; [reflexivity | now left].
  - eexists. split; [reflexivity | right; eauto].
Qed.


(** ** Interactive mode on groups that cannot be read *)

Lemma push_items_readable_prefix (pre : list Group) (itemss : list (list Config))
    (rest : list (option Group)) :
  map items pre = map Some itemss ->
  Forall (spreadable host) itemss ->
  forall acc h,
    push_items host (map Some pre ++ rest) acc h =
    push_items host rest (acc ++ concat itemss) h.
Proof.
  revert itemss. induction pre as [|g pre IH]; intros [|its itemss] Hmap Hfit acc h;
    try discriminate.
  - simpl. now rewrite app_nil_r.
  - simpl in Hmap. injection Hmap as Hg Hrest.
    inversion Hfit as [|? ? Hits Hfit']; subst.
    simpl. unfold bind, prop, orThrow, ret. rewrite Hg.
    rewrite (spreadable_leb host its Hits).
    rewrite (IH itemss Hrest Hfit'). now rewrite app_assoc.
Qed.

Lemma push_items_unreadable (bad : option Group) (rest : list (option Group))
    (acc : list Config) (h : list (Event Payload)) :
  unreadable bad -> push_items host (bad :: rest) acc h = (Throw TypeError, h).
Proof.
  intros [-> | (g & -> & Hnone)]; [reflexivity|].
  simpl. unfold bind, prop, orThrow, ret. now rewrite Hnone.
Qed.

Lemma multi_root_warning_run (groups : list (option Group))
    (h : list (Event Payload)) :
  (if (1 <? length groups)%nat
   then window_showWarningMessage
          "It is not supported to run tests with config from multi root."
   else ret tt) h =
  (Normal tt,
   h ++ (if (1 <? length groups)%nat
         then [WarningMessage multi_root_text] else [])).
Proof.
  destruct (1 <? length groups)%nat; [reflexivity|].
  unfold ret. now rewrite app_nil_r.
Qed.

Lemma selectDeprecatedConfig_interactive_push_throws
    (groups : list (option Group)) (e : JsError) (h : list (Event Payload)) :
  groups <> [] ->
  (forall acc l, push_items host groups acc l = (Throw e, l)) ->
  selectDeprecatedConfig host groups false h =
  (Throw e,
   h ++ (if (1 <? length groups)%nat then [WarningMessage multi_root_text] else [])).
Proof.
  intros Hne Hpush. unfold selectDeprecatedConfig.
  destruct groups as [|og groups]; [congruence|].
  change (length (og :: groups) =? 0)%nat with false. cbv iota.
  now rewrite bind_run, multi_root_warning_run, bind_run, Hpush.
Qed.

(** X5. Interactive mode reads the groups in order.  After groups that
    have their items, each list within what one call takes as arguments,
    a group that is [undefined] or has no [items] makes the call throw a
    [TypeError], and a group with more items than one call takes makes it
    throw a [RangeError].  Either way no prompt is shown, and the multi-root
    warning, emitted first, stays in the log when there is more than one
    group. *)
Theorem selectDeprecatedConfig_interactive_unreadable
    (pre : list Group) (itemss : list (list Config)) (bad : option Group)
    (post : list (option Group)) (h : list (Event Payload)) :
  map items pre = map Some itemss ->
  Forall (spreadable host) itemss ->
  let groups := map Some pre ++ bad :: post in
  let warned :=
    if (1 <? length groups)%nat then [WarningMessage multi_root_text] else [] in
  (unreadable bad ->
   selectDeprecatedConfig host groups false h = (Throw TypeError, h ++ warned)) /\
  (forall g its,
     bad = Some g -> items g = Some its -> argumentLimit host < length its ->
     selectDeprecatedConfig host groups false h = (Throw RangeError, h ++ warned)).
Proof.
  intros Hitems Hfit groups warned.
  assert (Hne : groups <> []) by (unfold groups; destruct pre; discriminate).
  split.
  - intros Hbad.
    apply (selectDeprecatedConfig_interactive_push_throws groups TypeError h Hne).
    intros acc l. unfold groups.
    rewrite (push_items_readable_prefix pre itemss _ Hitems Hfit).
    now apply push_items_unreadable.
  - intros g its -> Hits Hover.
    apply (selectDeprecatedConfig_interactive_push_throws groups RangeError h Hne).
    intros acc l. unfold groups.
    rewrite (push_items_readable_prefix pre itemss _ Hitems Hfit).
    now apply (push_items_over_limit host g its).
Qed.

(** X6. Interactive mode returns "none" only for an empty sequence of
    groups: with at least one group the call returns a configuration or
    throws. *)
Theorem selectDeprecatedConfig_interactive_none_iff
    (groups : list (option Group)) (h : list (Event Payload)) :
  fst (selectDeprecatedConfig host groups false h) = Normal None <-> groups = [].
Proof.
  split; [|intros ->; reflexivity].
  destruct groups as [|og groups]; [reflexivity|]. intros Hrun. exfalso.
  revert Hrun. unfold selectDeprecatedConfig.
  change (length (og :: groups) =? 0)%nat with false. cbv iota.
  rewrite bind_run, multi_root_warning_run, bind_run.
  destruct (push_items host (og :: groups) [] _) as [[its|e] l]; [|discriminate].
  rewrite bind_run, selectQuickPick_run.
  destruct (showQuickPick host _ _); discriminate.
Qed.

(** ** Interactive mode with one group, in full *)

Lemma selectDeprecatedConfig_interactive_single (og : option Group)
    (h : list (Event Payload)) :
  selectDeprecatedConfig host [og] false h =
  match og with
  | Some g =>
      match items g with
      | Some its =>
          if (length its <=? argumentLimit host)%nat then
            (prompt_completion host (push_choices host 0 its []),
             h ++ [QuickPick (push_choices host 0 its []) placeHolder_text])
          else (Throw RangeError, h)
      | None => (Throw TypeError, h)
      end
  | None => (Throw TypeError, h)
  end.
Proof.
  unfold selectDeprecatedConfig. simpl. rewrite !bind_run. simpl.
  destruct og as [g|]; [|reflexivity]. simpl. rewrite bind_run.
  destruct (items g) as [its|]; [|reflexivity].
  repeat (rewrite bind_run; simpl).
  destruct (length its <=? argumentLimit host)%nat; [|reflexivity].
  unfold ret at 1. cbv iota beta. rewrite bind_run, selectQuickPick_run.
  unfold prompt_completion.
  destruct (showQuickPick host _ _); reflexivity.
Qed.

(** ** [loadRunConfig], in full *)

Lemma loadRunConfig_run (this : TestConfigManager) (t : ITestItem)
    (tests : list ITestItem) (isDebug u : bool) (h : list (Event Payload)) :
  loadRunConfig host this (t :: tests) isDebug u h =
  match getWorkspaceFolder host (Uri_parse host (ITestItem_uri t)) with
  | None => (Normal None, h)
  | Some wf =>
      match getConfiguration host (WorkspaceFolder_uri wf) with
      | Some (c :: cs) =>
          if u then (Normal (Some c), h)
          else (prompt_completion host (push_choices host 0 (c :: cs) []),
                h ++ [QuickPick (push_choices host 0 (c :: cs) []) placeHolder_text])
      | _ =>
          if pathExists host (config_file host this wf) then
            match readFile host (config_file host this wf) with
            | None => (Throw SystemError, h)
            | Some content =>
                match JSON_parse host content with
                | None => (Throw SyntaxError, h)
                | Some doc =>
                    selectDeprecatedConfig host [legacy_group isDebug doc] u h
                end
            end
          else (Normal None, h)
      end
  end.
Proof.
  unfold loadRunConfig. rewrite bind_run. simpl.
  destruct (getWorkspaceFolder host _) as [wf|]; [|reflexivity].
  fold (config_file host this wf).
  assert (Hlegacy :
    (if negb (pathExists host (config_file host this wf)) then ret None
     else bind (orThrow SystemError (readFile host (config_file host this wf)))
            (fun content =>
               bind (orThrow SyntaxError (JSON_parse host content))
                 (fun deprecatedConfig =>
                    selectDeprecatedConfig host
                      ([] ++ [if isDebug then debug deprecatedConfig
                              else run deprecatedConfig]) u))) h =
    if pathExists host (config_file host this wf) then
      match readFile host (config_file host this wf) with
      | None => (Throw SystemError, h)
      | Some content =>
          match JSON_parse host content with
          | None => (Throw SyntaxError, h)
          | Some doc => selectDeprecatedConfig host [legacy_group isDebug doc] u h
          end
      end
    else (Normal None, h)).
  { destruct (pathExists host (config_file host this wf)); [|reflexivity].
    cbn [negb]. rewrite bind_run.
    destruct (readFile host (config_file host this wf)) as [content|];
      [|reflexivity].
    simpl. rewrite bind_run.
    destruct (JSON_parse host content) as [doc|]; reflexivity. }
  destruct (getConfiguration host (WorkspaceFolder_uri wf)) as [[|c cs]|];
    try exact Hlegacy.
  destruct u; [reflexivity|].
  rewrite bind_run, selectQuickPick_run. unfold prompt_completion.
  destruct (showQuickPick host _ _); reflexivity.
Qed.

(** X7. [loadRunConfig] looks at the first test item only: the items
    after it never change the call; and with no test item at all the call
    throws a [TypeError] before anything is looked up. *)
Theorem loadRunConfig_first_test_only (this : TestConfigManager)
    (isDebug u : bool) (h : list (Event Payload)) :
  (forall t rest rest',
     loadRunConfig host this (t :: rest) isDebug u h =
     loadRunConfig host this (t :: rest') isDebug u h) /\
  loadRunConfig host this [] isDebug u h = (Throw TypeError, h).
Proof.
  split; [|reflexivity].
  intros t rest rest'. now rewrite !loadRunConfig_run.
Qed.

(** X8. When the settings hold a non-empty configuration list, interactive
    mode prompts once over the whole list, in order, and ends as the prompt
    ends; neither the mode flag nor the legacy file plays a part. *)
Theorem loadRunConfig_interactive_new_schema (this : TestConfigManager)
    (t : ITestItem) (tests : list ITestItem) (isDebug : bool)
    (wf : WorkspaceFolder Uri) (c : Config) (configs : list Config)
    (h : list (Event Payload)) :
  getWorkspaceFolder host (Uri_parse host (ITestItem_uri t)) = Some wf ->
  getConfiguration host (WorkspaceFolder_uri wf) = Some (c :: configs) ->
  exists choices,
    map item choices = c :: configs /\
    loadRunConfig host this (t :: tests) isDebug false h =
    (prompt_completion host choices, h ++ [QuickPick choices placeHolder_text]).
Proof.
  intros Hwf Hcfg. exists (push_choices host 0 (c :: configs) []).
  split; [apply push_choices_items|].
  now rewrite loadRunConfig_run, Hwf, Hcfg.
Qed.

(** X9. One call of [loadRunConfig] interacts with the user at most
    once.  In default mode it shows at most one warning and never a prompt;
    in interactive mode it shows at most one prompt and never a warning, the
    multi-root warning included. *)
Theorem loadRunConfig_one_interaction (this : TestConfigManager)
    (tests : list ITestItem) (isDebug u : bool) (h : list (Event Payload)) :
  exists evs,
    snd (loadRunConfig host this tests isDebug u h) = h ++ evs /\
    if u then evs = [] \/ exists m, evs = [WarningMessage m]
    else evs = [] \/ exists choices, evs = [QuickPick choices placeHolder_text].
Proof.
  assert (Hquiet : forall r : Completion (option Config),
    exists evs, snd (r, h) = h ++ evs /\
      if u then evs = [] \/ exists m, evs = [WarningMessage m]
      else evs = [] \/ exists choices, evs = [QuickPick choices placeHolder_text]).
  { intros r. exists []. rewrite app_nil_r. split; [reflexivity|].
    destruct u; now left. }
  destruct tests as [|t tests]; [apply Hquiet|].
  rewrite loadRunConfig_run.
  destruct (getWorkspaceFolder host _) as [wf|]; [|apply Hquiet].
  assert (Hlegacy : forall og,
    exists evs, snd (selectDeprecatedConfig host [og] u h) = h ++ evs /\
      if u then evs = [] \/ exists m, evs = [WarningMessage m]
      else evs = [] \/ exists choices, evs = [QuickPick choices placeHolder_text]).
  { intros og. destruct u.
    - destruct og as [g|]; [|apply Hquiet].
      rewrite selectDeprecatedConfig_default_single.
      destruct (truthy (default g)); [|apply Hquiet].
      destruct (items g) as [its|]; [|apply Hquiet].
      destruct (filter _ its) as [|c [|c' cs]]; [|apply Hquiet|];
        (eexists; split; [reflexivity | right; eauto]).
    - rewrite selectDeprecatedConfig_interactive_single.
      destruct og as [g|]; [|apply Hquiet].
      destruct (items g) as [its|]; [|apply Hquiet].
      destruct (length its <=? argumentLimit host)%nat; [|apply Hquiet].
      eexists. split; [reflexivity | right; eauto]. }
  destruct (getConfiguration host _) as [[|c cs]|].
  - destruct (pathExists host _); [|apply Hquiet].
    destruct (readFile host _) as [content|]; [|apply Hquiet].
    destruct (JSON_parse host content) as [doc|]; [apply Hlegacy | apply Hquiet].
  - destruct u; [apply Hquiet|].
    eexists. split; [reflexivity | right; eauto].
  - destruct (pathExists host _); [|apply Hquiet].
    destruct (readFile host _) as [content|]; [|apply Hquiet].
    destruct (JSON_parse host content) as [doc|]; [apply Hlegacy | apply Hquiet].
Qed.

(** X10. In interactive mode [loadRunConfig] returns "none" in exactly two
    situations: the first test item has no workspace folder, or the
    settings hold no usable list and the file the manager looks for does
    not exist. *)
Theorem loadRunConfig_interactive_none_iff (this : TestConfigManager)
    (t : ITestItem) (tests : list ITestItem) (isDebug : bool)
    (h : list (Event Payload)) :
  fst (loadRunConfig host this (t :: tests) isDebug false h) = Normal None <->
  getWorkspaceFolder host (Uri_parse host (ITestItem_uri t)) = None \/
  exists wf,
    getWorkspaceFolder host (Uri_parse host (ITestItem_uri t)) = Some wf /\
    new_schema_unset host wf /\
    pathExists host (config_file host this wf) = false.
Proof.
  rewrite loadRunConfig_run. unfold new_schema_unset.
  assert (Hprompt : forall choices (l : list (Event Payload)),
    fst (prompt_completion host choices, l) <> Normal None).
  { intros choices l. unfold prompt_completion. simpl.
    destruct (showQuickPick host _ _); discriminate. }
  assert (Hlegacy : forall og,
    fst (selectDeprecatedConfig host [og] false h) <> Normal None).
  { intros og. rewrite selectDeprecatedConfig_interactive_single.
    destruct og as [g|]; [|discriminate].
    destruct (items g) as [its|]; [|discriminate].
    destruct (length its <=? argumentLimit host)%nat;
      [apply Hprompt | discriminate]. }
  destruct (getWorkspaceFolder host _) as [wf|]; [|split; auto].
  split.
  - intros Hnone. right. exists wf. split; [reflexivity|].
    destruct (getConfiguration host _) as [[|c cs]|];
      try (exfalso; revert Hnone; apply Hprompt).
    + split; [now right|].
      destruct (pathExists host _); [exfalso | reflexivity].
      destruct (readFile host _) as [content|]; [|discriminate].
      destruct (JSON_parse host content) as [doc|]; [|discriminate].
      revert Hnone. apply Hlegacy.
    + split; [now left|].
      destruct (pathExists host _); [exfalso | reflexivity].
      destruct (readFile host _) as [content|]; [|discriminate].
      destruct (JSON_parse host content) as [doc|]; [|discriminate].
      revert Hnone. apply Hlegacy.
  - intros [[=] | (wf' & [= <-] & [Hcfg | Hcfg] & Hex)];
      rewrite Hcfg, Hex; reflexivity.
Qed.

(** X11. When the settings hold no usable list and the legacy file exists
    but cannot be read, the rejection of the read is what the call throws;
    nothing is parsed and nothing is shown. *)
Theorem loadRunConfig_read_failure (this : TestConfigManager)
    (t : ITestItem) (tests : list ITestItem) (isDebug u : bool)
    (wf : WorkspaceFolder Uri) (h : list (Event Payload)) :
  getWorkspaceFolder host (Uri_parse host (ITestItem_uri t)) = Some wf ->
  new_schema_unset host wf ->
  pathExists host (config_file host this wf) = true ->
  readFile host (config_file host this wf) = None ->
  loadRunConfig host this (t :: tests) isDebug u h = (Throw SystemError, h).
Proof.
  intros Hwf [Hcfg | Hcfg] Hex Hread;
    now rewrite loadRunConfig_run, Hwf, Hcfg, Hex, Hread.
Qed.

(** X12. On the legacy path in interactive mode, when the group the mode
    flag asks for ([debug] when it is set, [run] otherwise) has items that
    one call takes as arguments, the prompt is offered exactly those items,
    in their order and without any warning; the other group is not looked
    at. *)
Theorem loadRunConfig_legacy_interactive (this : TestConfigManager)
    (t : ITestItem) (tests : list ITestItem) (isDebug : bool)
    (wf : WorkspaceFolder Uri) (content : string) (doc : ITestConfig Payload)
    (g : Group) (its : list Config) (h : list (Event Payload)) :
  getWorkspaceFolder host (Uri_parse host (ITestItem_uri t)) = Some wf ->
  new_schema_unset host wf ->
  pathExists host (config_file host this wf) = true ->
  readFile host (config_file host this wf) = Some content ->
  JSON_parse host content = Some doc ->
  legacy_group isDebug doc = Some g ->
  items g = Some its ->
  spreadable host its ->
  exists choices,
    map item choices = its /\
    loadRunConfig host this (t :: tests) isDebug false h =
    (prompt_completion host choices, h ++ [QuickPick choices placeHolder_text]).
Proof.
  intros Hwf Hunset Hex Hread Hparse Hg Hits Hfit.
  exists (push_choices host 0 its []). split; [apply push_choices_items|].
  rewrite loadRunConfig_run, Hwf.
  destruct Hunset as [Hcfg | Hcfg];
    now rewrite Hcfg, Hex, Hread, Hparse, selectDeprecatedConfig_interactive_single,
      Hg, Hits, (spreadable_leb host its Hfit).
Qed.

(** ** Fallback labels *)

Lemma Number_toString_inj (n m : nat) :
  Number_toString n = Number_toString m -> n = m.
Proof.
  unfold Number_toString. intros H.
  apply (f_equal NilEmpty.uint_of_string) in H.
  rewrite !NilEmpty.usu in H. injection H as H.
  now apply Unsigned.to_uint_inj.
Qed.

Lemma append_inj_l (p s1 s2 : string) :
  (p ++ s1 = p ++ s2)%string -> s1 = s2.
Proof.
  induction p as [|a p IH]; simpl; intros H; [exact H|].
  injection H as H. auto.
Qed.

Lemma entry_at_fallback (k : nat) (c : Config) :
  truthy (name c) = false ->
  label (entry_at host k c) = ("Configuration #" ++ Number_toString (k + 1))%string.
Proof.
  intros Hf. apply truthy_false in Hf. simpl.
  destruct Hf as [-> | ->]; reflexivity.
Qed.

(** X13. Among the entries offered by [selectQuickPick], two
    configurations without a usable name (absent or empty) at different
    positions never get the same label. *)
Theorem selectQuickPick_fallback_labels_distinct (configs : list Config)
    (h : list (Event Payload)) :
  exists choices,
    snd (selectQuickPick host configs h) = h ++ [QuickPick choices placeHolder_text] /\
    forall k1 k2 c1 c2 e1 e2,
      k1 <> k2 ->
      nth_error configs k1 = Some c1 -> nth_error configs k2 = Some c2 ->
      truthy (name c1) = false -> truthy (name c2) = false ->
      nth_error choices k1 = Some e1 -> nth_error choices k2 = Some e2 ->
      label e1 <> label e2.
Proof.
  exists (push_choices host 0 configs []).
  rewrite selectQuickPick_run. split; [reflexivity|].
  intros k1 k2 c1 c2 e1 e2 Hk Hc1 Hc2 Hf1 Hf2 He1 He2 Heq.
  rewrite push_choices_nth, Hc1 in He1. rewrite push_choices_nth, Hc2 in He2.
  simpl in He1, He2. injection He1 as <-. injection He2 as <-.
  rewrite (entry_at_fallback k1 c1 Hf1), (entry_at_fallback k2 c2 Hf2) in Heq.
  apply append_inj_l, Number_toString_inj in Heq. lia.
Qed.

(** ** Where a returned configuration comes from *)

(** X14. When the user answers prompts with entries they were offered,
    every configuration [loadRunConfig] returns is one of the configured
    ones: an element of the settings list, or, when the settings hold no
    usable list, an item of the group the mode flag asks for in the parsed
    legacy file; in default mode on the legacy path its name is the default
    name of that group. *)
Theorem loadRunConfig_provenance (this : TestConfigManager) (t : ITestItem)
    (tests : list ITestItem) (isDebug u : bool) (c : Config)
    (h h' : list (Event Payload)) :
  answers_offered host ->
  loadRunConfig host this (t :: tests) isDebug u h = (Normal (Some c), h') ->
  exists wf,
    getWorkspaceFolder host (Uri_parse host (ITestItem_uri t)) = Some wf /\
    ((exists cs, getConfiguration host (WorkspaceFolder_uri wf) = Some cs /\ In c cs) \/
     (new_schema_unset host wf /\
      exists content doc g its,
        readFile host (config_file host this wf) = Some content /\
        JSON_parse host content = Some doc /\
        legacy_group isDebug doc = Some g /\
        items g = Some its /\ In c its /\
        (u = true -> name c = default g))).
Proof.
  intros Hanswer. rewrite loadRunConfig_run.
  assert (Hprompt : forall (its : list Config) (l : list (Event Payload)),
    (prompt_completion host (push_choices host 0 its []), l) = (Normal (Some c), h') ->
    In c its).
  { intros its l Hrun. unfold prompt_completion in Hrun.
    destruct (showQuickPick host _ _) as [s|] eqn:Hs; [|discriminate].
    injection Hrun as <- _. apply Hanswer in Hs.
    rewrite <- (push_choices_items host its 0). now apply in_map. }
  assert (Hlegacy : forall og,
    selectDeprecatedConfig host [og] u h = (Normal (Some c), h') ->
    exists g its, og = Some g /\ items g = Some its /\ In c its /\
                  (u = true -> name c = default g)).
  { intros og Hrun. destruct u.
    - destruct og as [g|]; [|discriminate].
      rewrite selectDeprecatedConfig_default_single in Hrun.
      destruct (truthy (default g)) eqn:Ht; [|discriminate].
      destruct (proj1 (truthy_true _) Ht) as (d & Hd & _).
      destruct (items g) as [its|] eqn:Hits; [|discriminate].
      rewrite Hd in Hrun. simpl interpolate in Hrun.
      assert (Hc : In c (filter (named d) its)).
      { destruct (filter (named d) its) as [|c0 [|c1 cs]]; [discriminate| |];
          injection Hrun as <- _; now left. }
      apply filter_In in Hc. destruct Hc as (Hin & Hnamed).
      exists g, its. repeat split; auto.
      intros _. rewrite Hd. now apply named_true.
    - rewrite selectDeprecatedConfig_interactive_single in Hrun.
      destruct og as [g|]; [|discriminate].
      destruct (items g) as [its|] eqn:Hits; [|discriminate].
      destruct (length its <=? argumentLimit host)%nat; [|discriminate].
      exists g, its. repeat split; auto; [eapply Hprompt; eauto | discriminate]. }
  destruct (getWorkspaceFolder host _) as [wf|]; [|discriminate].
  intros Hrun. exists wf. split; [reflexivity|]. unfold new_schema_unset.
  destruct (getConfiguration host _) as [[|c0 cs]|].
  - right. split; [now right|].
    destruct (pathExists host _); [|discriminate].
    destruct (readFile host _) as [content|]; [|discriminate].
    destruct (JSON_parse host content) as [doc|] eqn:Hparse; [|discriminate].
    destruct (Hlegacy _ Hrun) as (g & its & Hg & Hits & Hin & Hname).
    exists content, doc, g, its. repeat split; auto.
  - left. exists (c0 :: cs). split; [reflexivity|].
    destruct u.
    + injection Hrun as <- _. now left.
    + eapply Hprompt; eauto.
  - right. split; [now left|].
    destruct (pathExists host _); [|discriminate].
    destruct (readFile host _) as [content|]; [|discriminate].
    destruct (JSON_parse host content) as [doc|] eqn:Hparse; [|discriminate].
    destruct (Hlegacy _ Hrun) as (g & its & Hg & Hits & Hin & Hname).
    exists content, doc, g, its. repeat split; auto.
Qed.

End Further.

(** ** The one file a call looks at *)

Section OneFile.

Context {Payload Uri : Type}.
Variables host host' : Host Payload Uri.
Hypothesis Hsame : same_answers_but_files host host'.

Local Notation "'Config'" := (IExecutionConfig Payload).
Local Notation "'Group'" := (IExecutionConfigGroup Payload).

Lemma push_choices_same_but_files (configs : list Config) :
  forall i acc, push_choices host i configs acc = push_choices host' i configs acc.
Proof.
  induction configs as [|c cs IH]; intros i acc; simpl; [reflexivity|].
  rewrite (sbf_JSON_stringify _ _ Hsame). apply IH.
Qed.

Lemma prompt_completion_same_but_files (configs : list Config) :
  prompt_completion host (push_choices host 0 configs []) =
  prompt_completion host' (push_choices host' 0 configs []).
Proof.
  unfold prompt_completion.
  now rewrite push_choices_same_but_files, (sbf_showQuickPick _ _ Hsame).
Qed.

Lemma selectDeprecatedConfig_single_same_but_files (og : option Group) (u : bool)
    (h : list (Event Payload)) :
  selectDeprecatedConfig host [og] u h = selectDeprecatedConfig host' [og] u h.
Proof.
  destruct u.
  - destruct og as [g|]; [|reflexivity].
    now rewrite !selectDeprecatedConfig_default_single.
  - rewrite !selectDeprecatedConfig_interactive_single.
    destruct og as [g|]; [|reflexivity].
    destruct (items g) as [its|]; [|reflexivity].
    rewrite <- (sbf_argumentLimit _ _ Hsame).
    now rewrite prompt_completion_same_but_files, push_choices_same_but_files.
Qed.

(** X15. The only file a call of [loadRunConfig] depends on is the one the
    manager looks for in the folder of the first test item: two hosts that
    give the same answers everywhere else, and agree on whether that file
    exists and on what reading it gives, make the call end the same way
    with the same interactions, whatever they say about other files. *)
Theorem loadRunConfig_reads_one_file (this : TestConfigManager)
    (tests : list ITestItem) (isDebug u : bool) (h : list (Event Payload)) :
  (forall t wf,
     nth_error tests 0 = Some t ->
     getWorkspaceFolder host (Uri_parse host (ITestItem_uri t)) = Some wf ->
     pathExists host (config_file host this wf) =
     pathExists host' (config_file host this wf) /\
     readFile host (config_file host this wf) =
     readFile host' (config_file host this wf)) ->
  loadRunConfig host this tests isDebug u h =
  loadRunConfig host' this tests isDebug u h.
Proof.
  intros Hfiles.
  destruct tests as [|t tests]; [reflexivity|].
  rewrite !loadRunConfig_run.
  rewrite <- (sbf_Uri_parse _ _ Hsame), <- (sbf_getWorkspaceFolder _ _ Hsame).
  destruct (getWorkspaceFolder host _) as [wf|] eqn:Hwf; [|reflexivity].
  destruct (Hfiles t wf eq_refl Hwf) as (Hexists & Hread).
  rewrite <- (sbf_getConfiguration _ _ Hsame).
  assert (Hfile : config_file host' this wf = config_file host this wf).
  { unfold config_file.
    now rewrite <- (sbf_fsPath _ _ Hsame), <- (sbf_path_join _ _ Hsame). }
  rewrite Hfile, <- Hexists, <- Hread.
  assert (Hlegacy :
    (if pathExists host (config_file host this wf) then
       match readFile host (config_file host this wf) with
       | None => (Throw SystemError, h)
       | Some content =>
           match JSON_parse host content with
           | None => (Throw SyntaxError, h)
           | Some doc => selectDeprecatedConfig host [legacy_group isDebug doc] u h
           end
       end
     else (Normal None, h)) =
    (if pathExists host (config_file host this wf) then
       match readFile host (config_file host this wf) with
       | None => (Throw SystemError, h)
       | Some content =>
           match JSON_parse host' content with
           | None => (Throw SyntaxError, h)
           | Some doc => selectDeprecatedConfig host' [legacy_group isDebug doc] u h
           end
       end
     else (Normal None, h))).
  { destruct (pathExists host _); [|reflexivity].
    destruct (readFile host _) as [content|]; [|reflexivity].
    rewrite <- (sbf_JSON_parse _ _ Hsame).
    destruct (JSON_parse host content) as [doc|]; [|reflexivity].
    apply selectDeprecatedConfig_single_same_but_files. }
  destruct (getConfiguration host _) as [[|c cs]|]; try exact Hlegacy.
  destruct u; [reflexivity|].
  now rewrite prompt_completion_same_but_files, push_choices_same_but_files.
Qed.

End OneFile.

(** ** What a call asks of its collaborators *)

Section SameQueries.

Context {Payload Uri : Type}.
Variables host host' : Host Payload Uri.
Hypothesis Hlib : same_library host host'.

Local Notation "'Config'" := (IExecutionConfig Payload).
Local Notation "'Group'" := (IExecutionConfigGroup Payload).

Lemma push_choices_same_library (configs : list Config) :
  forall i acc, push_choices host i configs acc = push_choices host' i configs acc.
Proof.
  induction configs as [|c cs IH]; intros i acc; simpl; [reflexivity|].
  rewrite (lib_JSON_stringify _ _ Hlib). apply IH.
Qed.

Lemma prompt_same_library (configs : list Config) (h : list (Event Payload)) :
  showQuickPick host (push_choices host 0 configs []) placeHolder_text =
  showQuickPick host' (push_choices host 0 configs []) placeHolder_text ->
  (prompt_completion host (push_choices host 0 configs []),
   h ++ [QuickPick (push_choices host 0 configs []) placeHolder_text]) =
  (prompt_completion host' (push_choices host' 0 configs []),
   h ++ [QuickPick (push_choices host' 0 configs []) placeHolder_text]).
Proof.
  intros Hanswer. unfold prompt_completion.
  now rewrite <- push_choices_same_library, Hanswer.
Qed.

Lemma selectDeprecatedConfig_single_same_library (og : option Group) (u : bool)
    (h : list (Event Payload)) :
  (u = false ->
   forall g its, og = Some g -> items g = Some its ->
     showQuickPick host (push_choices host 0 its []) placeHolder_text =
     showQuickPick host' (push_choices host 0 its []) placeHolder_text) ->
  selectDeprecatedConfig host [og] u h = selectDeprecatedConfig host' [og] u h.
Proof.
  intros Hanswer. destruct u.
  - destruct og as [g|]; [|reflexivity].
    now rewrite !selectDeprecatedConfig_default_single.
  - rewrite !selectDeprecatedConfig_interactive_single.
    destruct og as [g|]; [|reflexivity].
    destruct (items g) as [its|] eqn:Hits; [|reflexivity].
    rewrite <- (lib_argumentLimit _ _ Hlib).
    destruct (length its <=? argumentLimit host)%nat; [|reflexivity].
    apply prompt_same_library. now apply (Hanswer eq_refl g its).
Qed.

Lemma loadRunConfig_same_queries (this : TestConfigManager)
    (tests : list ITestItem) (isDebug u : bool) (h : list (Event Payload)) :
  (forall t,
     nth_error tests 0 = Some t ->
     getWorkspaceFolder host (Uri_parse host (ITestItem_uri t)) =
     getWorkspaceFolder host' (Uri_parse host (ITestItem_uri t))) ->
  (forall t wf,
     nth_error tests 0 = Some t ->
     getWorkspaceFolder host (Uri_parse host (ITestItem_uri t)) = Some wf ->
     getConfiguration host (WorkspaceFolder_uri wf) =
     getConfiguration host' (WorkspaceFolder_uri wf) /\
     pathExists host (config_file host this wf) =
     pathExists host' (config_file host this wf) /\
     (pathExists host (config_file host this wf) = true ->
      readFile host (config_file host this wf) =
      readFile host' (config_file host this wf))) ->
  (u = false ->
   forall t l,
     nth_error tests 0 = Some t ->
     offered_list host this t isDebug l ->
     showQuickPick host (push_choices host 0 l []) placeHolder_text =
     showQuickPick host' (push_choices host 0 l []) placeHolder_text) ->
  loadRunConfig host this tests isDebug u h =
  loadRunConfig host' this tests isDebug u h.
Proof.
  intros Hfolder Hstate Hprompt.
  destruct tests as [|t tests]; [reflexivity|].
  rewrite !loadRunConfig_run.
  rewrite <- (lib_Uri_parse _ _ Hlib), <- (Hfolder t eq_refl).
  destruct (getWorkspaceFolder host _) as [wf|] eqn:Hwf; [|reflexivity].
  destruct (Hstate t wf eq_refl Hwf) as (Hcfg & Hexists & Hread).
  rewrite <- Hcfg.
  assert (Hfile : config_file host' this wf = config_file host this wf).
  { unfold config_file.
    now rewrite <- (lib_fsPath _ _ Hlib), <- (lib_path_join _ _ Hlib). }
  rewrite Hfile, <- Hexists.
  assert (Hlegacy :
    new_schema_unset host wf ->
    (if pathExists host (config_file host this wf) then
       match readFile host (config_file host this wf) with
       | None => (Throw SystemError, h)
       | Some content =>
           match JSON_parse host content with
           | None => (Throw SyntaxError, h)
           | Some doc => selectDeprecatedConfig host [legacy_group isDebug doc] u h
           end
       end
     else (Normal None, h)) =
    (if pathExists host (config_file host this wf) then
       match readFile host' (config_file host this wf) with
       | None => (Throw SystemError, h)
       | Some content =>
           match JSON_parse host' content with
           | None => (Throw SyntaxError, h)
           | Some doc => selectDeprecatedConfig host' [legacy_group isDebug doc] u h
           end
       end
     else (Normal None, h))).
  { intros Hunset.
    destruct (pathExists host _) eqn:Hex; [|reflexivity].
    rewrite <- (Hread eq_refl).
    destruct (readFile host _) as [content|] eqn:Hcontent; [|reflexivity].
    rewrite <- (lib_JSON_parse _ _ Hlib).
    destruct (JSON_parse host content) as [doc|] eqn:Hdoc; [|reflexivity].
    apply selectDeprecatedConfig_single_same_library.
    intros Hu g its Hg Hits. apply (Hprompt Hu t its eq_refl).
    exists wf. split; [exact Hwf|]. right. split; [exact Hunset|].
    exists content, doc, g. auto. }
  destruct (getConfiguration host _) as [[|c cs]|] eqn:Hlist.
  - apply Hlegacy. now right.
  - destruct u; [reflexivity|].
    apply prompt_same_library. apply (Hprompt eq_refl t (c :: cs) eq_refl).
    exists wf. split; [exact Hwf|]. left. split; [exact Hlist | discriminate].
  - apply Hlegacy. now left.
Qed.

End SameQueries.

Section Purity.

Context {Payload Uri : Type}.
Variable host : Host Payload Uri.

(** C9. A call of [loadRunConfig] is a function of its arguments and of
    what its collaborators answer to the questions it asks.  Take a second
    host that runs the same library code and answers alike on just these
    questions: the folder of the first test item, the settings and the
    configuration file of that folder (its content only when it exists),
    and, in interactive mode, the prompt over the one list the call can
    offer.  Whatever else differs between the two, the call ends the same
    way with the same interactions from any log.  Nothing is carried from
    one call to the next: a call only appends to the log it is given, what
    it appends does not depend on that log, and a second call with the same
    arguments right after a first ends as the first did. *)
Theorem loadRunConfig_pure (host' : Host Payload Uri) (this : TestConfigManager)
    (tests : list ITestItem) (isDebug u : bool) :
  same_library host host' ->
  (forall t,
     nth_error tests 0 = Some t ->
     getWorkspaceFolder host (Uri_parse host (ITestItem_uri t)) =
     getWorkspaceFolder host' (Uri_parse host (ITestItem_uri t))) ->
  (forall t wf,
     nth_error tests 0 = Some t ->
     getWorkspaceFolder host (Uri_parse host (ITestItem_uri t)) = Some wf ->
     getConfiguration host (WorkspaceFolder_uri wf) =
     getConfiguration host' (WorkspaceFolder_uri wf) /\
     pathExists host (config_file host this wf) =
     pathExists host' (config_file host this wf) /\
     (pathExists host (config_file host this wf) = true ->
      readFile host (config_file host this wf) =
      readFile host' (config_file host this wf))) ->
  (u = false ->
   forall t l,
     nth_error tests 0 = Some t ->
     offered_list host this t isDebug l ->
     showQuickPick host (push_choices host 0 l []) placeHolder_text =
     showQuickPick host' (push_choices host 0 l []) placeHolder_text) ->
  let call := loadRunConfig host this tests isDebug u in
  let call' := loadRunConfig host' this tests isDebug u in
  (forall h, call h = call' h) /\
  (forall h1 h2, fst (call h1) = fst (call' h2)) /\
  (forall h, snd (call h) = h ++ snd (call [])) /\
  (forall h, fst (call' (snd (call h))) = fst (call h)).
Proof.
  intros Hlib Hfolder Hstate Hprompt call call'.
  assert (Hf : framed call) by apply framed_loadRunConfig.
  assert (He : forall h, call' h = call h).
  { intros h. symmetry.
    now apply (loadRunConfig_same_queries host host' Hlib). }
  repeat split.
  - intros h. now rewrite He.
  - intros h1 h2. now rewrite He, (Hf h1), (Hf h2).
  - intros h. now rewrite (Hf h).
  - intros h. now rewrite He, (Hf (snd (call h))), (Hf h).
Qed.

End Purity.

(** * Concrete runs

    The statements above, instantiated on the sample host. *)

Module Runs.

Import Sample.

(** The new schema in default mode: the first of [[Y3; X1]] is returned. *)
Lemma loadRunConfig_default_new_schema_witness :
  getWorkspaceFolder newHost (Uri_parse newHost (ITestItem_uri test)) = Some ws /\
  getConfiguration newHost (WorkspaceFolder_uri ws) = Some (Y3 :: [X1]) /\
  loadRunConfig newHost (testConfigManager newHost) (test :: [stray]) true true [] =
  (Normal (Some Y3), []).
Proof.
  split; [reflexivity|]. split; [reflexivity|].
  apply (loadRunConfig_default_new_schema newHost (testConfigManager newHost)
           test [stray] true ws Y3 [X1] []); reflexivity.
Defined.

(** Default ["X"] over [[X1; X2; Y3]]: [X1] and one duplicate warning. *)
Lemma selectDeprecatedConfig_duplicate_default_witness :
  selectDeprecatedConfig legacyHost [Some runGroup] true [] =
  (Normal (Some X1), [WarningMessage "Duplicate configs with default name: X."]).
Proof.
  apply (selectDeprecatedConfig_duplicate_default legacyHost runGroup "X"
           [] [X2; Y3] X1 []).
  - reflexivity.
  - discriminate.
  - reflexivity.
  - intros x [].
  - reflexivity.
  - exists X2. split; [simpl; auto | reflexivity].
Defined.

(** Default ["Z"] over [[X1]]: "none" and one not-found warning. *)
Lemma selectDeprecatedConfig_default_not_found_witness :
  selectDeprecatedConfig legacyHost [Some debugGroup] true [] =
  (Normal None, [WarningMessage "There is no config with name: Z."]).
Proof.
  apply (selectDeprecatedConfig_default_not_found legacyHost debugGroup "Z" [X1] []).
  - reflexivity.
  - discriminate.
  - reflexivity.
  - intros x [<- | []]. discriminate.
Defined.

(** Two groups, a group without default and a group with an empty default
    all give "none"; the selection out of [runGroup] comes with its
    non-empty default. *)
Lemma selectDeprecatedConfig_default_gate_witness :
  selectDeprecatedConfig legacyHost [Some runGroup; Some debugGroup] true [] =
    (Normal None, []) /\
  selectDeprecatedConfig legacyHost [Some groupAB] true [] = (Normal None, []) /\
  selectDeprecatedConfig legacyHost [Some groupC] true [] = (Normal None, []) /\
  exists g d, [Some runGroup] = [Some g] /\ default g = Some d /\ d <> "".
Proof.
  split; [|split; [|split]].
  - apply (proj1 (selectDeprecatedConfig_default_gate legacyHost
                    [Some runGroup; Some debugGroup] [])).
    simpl. lia.
  - apply (proj1 (proj2 (selectDeprecatedConfig_default_gate legacyHost
                           [Some groupAB] [])) groupAB eq_refl).
    left. reflexivity.
  - apply (proj1 (proj2 (selectDeprecatedConfig_default_gate legacyHost
                           [Some groupC] [])) groupC eq_refl).
    right. reflexivity.
  - apply (proj2 (proj2 (selectDeprecatedConfig_default_gate legacyHost
                           [Some runGroup] []))
             X1 [WarningMessage "Duplicate configs with default name: X."]).
    reflexivity.
Defined.


(** A dismissed prompt throws; a chosen entry gives its configuration. *)
Lemma selectQuickPick_dismissed_or_chosen_witness :
  fst (selectQuickPick dismissHost [X1; Y3] []) = Throw (Error dismissed_text) /\
  fst (selectQuickPick legacyHost [Y3; X1] []) = Normal Y3.
Proof.
  split.
  - destruct (selectQuickPick_dismissed_or_chosen dismissHost [X1; Y3] [])
      as (choices & _ & Hdismissed & _).
    apply Hdismissed. reflexivity.
  - destruct (selectQuickPick_dismissed_or_chosen legacyHost [Y3; X1] [])
      as (choices & Hlog & _ & Hchosen).
    simpl in Hlog. injection Hlog as <-.
    apply (Hchosen (entry_at legacyHost 0 Y3)). reflexivity.
Defined.

(** The entries for an unnamed, a named and an empty-named configuration. *)
Lemma selectQuickPick_entries_witness :
  exists choices e1 e2 e3,
    snd (selectQuickPick legacyHost [anon4; X1; empty5] []) =
      [QuickPick choices placeHolder_text] /\
    choices = [e1; e2; e3] /\
    (label e1 = "Configuration #1" /\ item e1 = anon4) /\
    (label e2 = "X" /\ item e2 = X1 /\ detail e2 = "{X:1}") /\
    (label e3 = "Configuration #3" /\ item e3 = empty5).
Proof.
  destruct (selectQuickPick_entries legacyHost [anon4; X1; empty5] [])
    as (choices & Hlog & Hlen & Hentries).
  destruct (Hentries 0 anon4 eq_refl) as (e1 & H1 & Hi1 & _ & _ & Hl1).
  destruct (Hentries 1 X1 eq_refl) as (e2 & H2 & Hi2 & Hd2 & Hl2 & _).
  destruct (Hentries 2 empty5 eq_refl) as (e3 & H3 & Hi3 & _ & _ & Hl3).
  exists choices, e1, e2, e3.
  split; [exact Hlog|]. split.
  - destruct choices as [|c1 [|c2 [|c3 [|c4 cs]]]]; try discriminate Hlen.
    simpl in H1, H2, H3. congruence.
  - split; [|split].
    + split; [apply Hl1; left; reflexivity | exact Hi1].
    + split; [apply (Hl2 "X"); [reflexivity | discriminate] |].
      split; [exact Hi2 | exact Hd2].
    + split; [apply Hl3; right; reflexivity | exact Hi3].
Defined.

(** No folder, no legacy file, and a legacy file that does not parse. *)
Lemma loadRunConfig_none_or_parse_failure_witness :
  loadRunConfig legacyHost (testConfigManager legacyHost) [stray] false true [] =
    (Normal None, []) /\
  loadRunConfig noFileHost (testConfigManager noFileHost) [test] false false [] =
    (Normal None, []) /\
  loadRunConfig badFileHost (testConfigManager badFileHost) [test] true false [] =
    (Throw SyntaxError, []).
Proof.
  split; [|split].
  - apply (proj1 (loadRunConfig_none_or_parse_failure legacyHost stray []
                    false true [])).
    reflexivity.
  - apply (proj1 (proj2 (loadRunConfig_none_or_parse_failure noFileHost test []
                           false false [])) ws).
    + reflexivity.
    + left. reflexivity.
    + reflexivity.
  - apply (proj2 (proj2 (loadRunConfig_none_or_parse_failure badFileHost test []
                           true false [])) ws "text").
    + reflexivity.
    + right. reflexivity.
    + reflexivity.
    + reflexivity.
    + reflexivity.
Defined.

(** A document without [debug], asked for in debug mode, in both modes. *)
Lemma loadRunConfig_missing_group_witness :
  loadRunConfig noDebugHost (testConfigManager noDebugHost) [test] true true [] =
    (Throw TypeError, []) /\
  loadRunConfig noDebugHost (testConfigManager noDebugHost) [test] true false [] =
    (Throw TypeError, []).
Proof.
  split.
  - apply (loadRunConfig_missing_group noDebugHost test [] true true ws "text"
             docNoDebug []); try reflexivity.
    left. reflexivity.
  - apply (loadRunConfig_missing_group noDebugHost test [] true false ws "text"
             docNoDebug []); try reflexivity.
    left. reflexivity.
Defined.

(** [otherWorkspaceHost] answers as [legacyHost] does to what a call for
    [test] asks and differs elsewhere; the call ends the same way on both,
    also one after the other. *)
Lemma loadRunConfig_pure_witness :
  same_library legacyHost otherWorkspaceHost /\
  getWorkspaceFolder legacyHost "/elsewhere" <>
    getWorkspaceFolder otherWorkspaceHost "/elsewhere" /\
  pathExists legacyHost "/ws/pom.xml" <> pathExists otherWorkspaceHost "/ws/pom.xml" /\
  showQuickPick legacyHost [entry_at legacyHost 0 X1] "Other" <>
    showQuickPick otherWorkspaceHost [entry_at legacyHost 0 X1] "Other" /\
  loadRunConfig legacyHost (testConfigManager legacyHost) [test] false false [] =
  loadRunConfig otherWorkspaceHost (testConfigManager legacyHost) [test] false false [] /\
  fst (loadRunConfig otherWorkspaceHost (testConfigManager legacyHost) [test] false false
         (snd (loadRunConfig legacyHost (testConfigManager legacyHost) [test]
                 false false []))) =
  Normal (Some X1).
Proof.
  assert (Hlib : same_library legacyHost otherWorkspaceHost)
    by (constructor; reflexivity).
  split; [exact Hlib|]. split; [discriminate|]. split; [discriminate|].
  split; [discriminate|].
  destruct (loadRunConfig_pure legacyHost otherWorkspaceHost
              (testConfigManager legacyHost) [test] false false Hlib)
    as (Hcall & _ & _ & Hagain).
  - intros t Ht. simpl in Ht. injection Ht as <-. reflexivity.
  - intros t wf Ht Hwf. simpl in Ht. injection Ht as <-.
    simpl in Hwf. injection Hwf as <-. repeat split.
  - intros _ t l Ht Hl. reflexivity.
  - split; [apply Hcall|]. rewrite Hagain. reflexivity.
Defined.

(** The same document in run mode selects from the [run] group. *)
Example loadRunConfig_run_mode :
  loadRunConfig noDebugHost (testConfigManager noDebugHost) [test] false true [] =
  (Normal (Some X1), [WarningMessage "Duplicate configs with default name: X."]).
Proof. reflexivity. Qed.

(** An empty [tests] array makes the read of [tests[0].uri] throw. *)
Example loadRunConfig_no_tests :
  loadRunConfig newHost (testConfigManager newHost) [] false true [] =
  (Throw TypeError, []).
Proof. reflexivity. Qed.

(** Without groups there is no prompt at all. *)
Example selectDeprecatedConfig_no_groups :
  selectDeprecatedConfig legacyHost [] false [] = (Normal None, []).
Proof. reflexivity. Qed.

(** The twelfth unnamed configuration is labelled with two digits. *)
Example choice_label_two_digits :
  choice_label 11 anon4 = "Configuration #12".
Proof. reflexivity. Qed.

End Runs.

(** * Concrete runs of the further properties *)

Module FurtherRuns.

Import Sample.

(** Default ["Y"] over [[X1; X2; Y3]]: [Y3], and nothing is shown. *)
Lemma selectDeprecatedConfig_single_match_witness :
  selectDeprecatedConfig legacyHost [Some groupY] true [] = (Normal (Some Y3), []).
Proof.
  apply (selectDeprecatedConfig_single_match legacyHost groupY "Y" [X1; X2] [] Y3 []).
  - reflexivity.
  - discriminate.
  - reflexivity.
  - reflexivity.
  - intros x [<- | [<- | []]]; discriminate.
  - intros x [].
Defined.

(** Default ["X"] over [[X1; X2; Y3]]: the search finds [X1]. *)
Lemma selectDeprecatedConfig_default_first_named_witness :
  fst (selectDeprecatedConfig legacyHost [Some runGroup] true []) = Normal (Some X1).
Proof.
  apply (selectDeprecatedConfig_default_first_named legacyHost runGroup "X"
           [X1; X2; Y3] []).
  - reflexivity.
  - discriminate.
  - reflexivity.
Defined.


(** A readable group followed by an undefined one: the warning, then the
    [TypeError], and no prompt.  On the engine that takes two arguments, a
    group of three items before the undefined one: the warning, then the
    [RangeError]. *)
Lemma selectDeprecatedConfig_interactive_unreadable_witness :
  selectDeprecatedConfig legacyHost [Some groupAB; None] false [] =
    (Throw TypeError, [WarningMessage multi_root_text]) /\
  selectDeprecatedConfig smallEngineHost [Some groupC; Some runGroup; None] false [] =
    (Throw RangeError, [WarningMessage multi_root_text]).
Proof.
  assert (Hfit : Forall (spreadable legacyHost) [[X1; X2]])
    by (repeat constructor; apply Nat.leb_le; reflexivity).
  assert (Hfit' : Forall (spreadable smallEngineHost) [[Y3]])
    by (repeat constructor; apply Nat.leb_le; reflexivity).
  split.
  - apply (proj1 (selectDeprecatedConfig_interactive_unreadable legacyHost
                    [groupAB] [[X1; X2]] None [] [] eq_refl Hfit)).
    left. reflexivity.
  - apply (proj2 (selectDeprecatedConfig_interactive_unreadable smallEngineHost
                    [groupC] [[Y3]] (Some runGroup) [None] [] eq_refl Hfit')
             runGroup [X1; X2; Y3] eq_refl eq_refl).
    simpl. lia.
Defined.

(** The settings list [[Y3; X1]] in interactive mode: both are offered. *)
Lemma loadRunConfig_interactive_new_schema_witness :
  exists choices,
    map item choices = [Y3; X1] /\
    loadRunConfig newHost (testConfigManager newHost) [test] true false [] =
    (prompt_completion newHost choices, [QuickPick choices placeHolder_text]).
Proof.
  apply (loadRunConfig_interactive_new_schema newHost (testConfigManager newHost)
           test [] true ws Y3 [X1] []); reflexivity.
Defined.

(** The legacy file is there but the read is rejected. *)
Lemma loadRunConfig_read_failure_witness :
  loadRunConfig unreadableHost (testConfigManager unreadableHost) [test] false true [] =
  (Throw SystemError, []).
Proof.
  apply (loadRunConfig_read_failure unreadableHost (testConfigManager unreadableHost)
           test [] false true ws []).
  - reflexivity.
  - left. reflexivity.
  - reflexivity.
  - reflexivity.
Defined.

(** Run mode on the legacy file: the items of the [run] group are offered. *)
Lemma loadRunConfig_legacy_interactive_witness :
  exists choices,
    map item choices = [X1; X2; Y3] /\
    loadRunConfig legacyHost (testConfigManager legacyHost) [test] false false [] =
    (prompt_completion legacyHost choices, [QuickPick choices placeHolder_text]).
Proof.
  apply (loadRunConfig_legacy_interactive legacyHost (testConfigManager legacyHost)
           test [] false ws "text" doc runGroup [X1; X2; Y3] []).
  - reflexivity.
  - left. reflexivity.
  - reflexivity.
  - reflexivity.
  - reflexivity.
  - reflexivity.
  - reflexivity.
  - apply Nat.leb_le. reflexivity.
Defined.

(** The unnamed first and the empty-named third entry differ in label. *)
Lemma selectQuickPick_fallback_labels_distinct_witness :
  exists choices e1 e3,
    snd (selectQuickPick legacyHost [anon4; X1; empty5] []) =
      [QuickPick choices placeHolder_text] /\
    nth_error choices 0 = Some e1 /\ nth_error choices 2 = Some e3 /\
    label e1 <> label e3.
Proof.
  destruct (selectQuickPick_fallback_labels_distinct legacyHost [anon4; X1; empty5] [])
    as (choices & Hlog & Hdistinct).
  pose proof Hlog as Hlog'. simpl in Hlog'. injection Hlog' as <-.
  eexists _, _, _. split; [reflexivity|]. split; [reflexivity|].
  split; [reflexivity|].
  apply (Hdistinct 0 2 anon4 empty5); (reflexivity || discriminate).
Defined.

(** The user of [legacyHost] picks the first offered entry; the
    configuration returned in default mode is an item of the [run] group
    and carries its default name. *)
Lemma loadRunConfig_provenance_witness :
  answers_offered legacyHost /\
  loadRunConfig legacyHost (testConfigManager legacyHost) [test] false true [] =
    (Normal (Some X1), [WarningMessage (duplicate_text "X")]) /\
  exists wf,
    getWorkspaceFolder legacyHost (Uri_parse legacyHost (ITestItem_uri test)) = Some wf /\
    ((exists cs, getConfiguration legacyHost (WorkspaceFolder_uri wf) = Some cs /\
                 In X1 cs) \/
     (new_schema_unset legacyHost wf /\
      exists content doc g its,
        readFile legacyHost
          (config_file legacyHost (testConfigManager legacyHost) wf) = Some content /\
        JSON_parse legacyHost content = Some doc /\
        legacy_group false doc = Some g /\
        items g = Some its /\ In X1 its /\
        (true = true -> name X1 = default g))).
Proof.
  assert (Hanswer : answers_offered legacyHost).
  { intros choices ph s Hs. simpl in Hs. now apply nth_error_In in Hs. }
  split; [exact Hanswer|]. split; [reflexivity|].
  apply (loadRunConfig_provenance legacyHost (testConfigManager legacyHost) test []
           false true X1 [] [WarningMessage (duplicate_text "X")] Hanswer).
  reflexivity.
Defined.

(** [clutteredHost] has one more file than [legacyHost]; the call does not
    notice. *)
Lemma loadRunConfig_reads_one_file_witness :
  same_answers_but_files legacyHost clutteredHost /\
  pathExists legacyHost "/ws/pom.xml" <> pathExists clutteredHost "/ws/pom.xml" /\
  loadRunConfig legacyHost (testConfigManager legacyHost) [test] true false [] =
  loadRunConfig clutteredHost (testConfigManager legacyHost) [test] true false [].
Proof.
  assert (Hsame : same_answers_but_files legacyHost clutteredHost)
    by (constructor; reflexivity).
  split; [exact Hsame|]. split; [discriminate|].
  apply (loadRunConfig_reads_one_file legacyHost clutteredHost Hsame).
  intros t wf Ht Hwf. simpl in Ht. injection Ht as <-.
  simpl in Hwf. injection Hwf as <-. split; reflexivity.
Defined.

(** The settings list wins over the legacy file, and the prompt is over the
    whole list. *)
Example loadRunConfig_new_schema_prompt :
  loadRunConfig newHost (testConfigManager newHost) [test] false false [] =
  (Normal (Some Y3),
   [QuickPick [entry_at newHost 0 Y3; entry_at newHost 1 X1] placeHolder_text]).
Proof. reflexivity. Qed.

End FurtherRuns.
